(** * Upload authorisation and client provenance: [server/tushandlers.go]

    A shallow embedding of the request pipeline of the file-upload plugin
    (package [server]): the reserved-field checks, the resolution of the
    client address behind reverse proxies, the EXTJWT claim processing, the
    HTTP dispatch of [postFile], and the uploader-IP recorder.

    Go values are modelled as follows.
    - [string] is a byte string; maps are [gmap]; slices are lists.
    - An [error] is an inductive with one constructor per dynamic type the
      code distinguishes by type assertion or by identity.
    - [fmt.Errorf]/[fmt.Sprintf] keep the format string and the arguments,
      unrendered.
    - The logger, standard output, the gin context and the request are the
      fields of an explicit [State], threaded by a small state monad whose
      results may also be a Go panic.
    - Functions of other packages ([net], [jwt-go], the metadata codec, the
      [db] package) are the fields of type classes; the development is
      generic in them, and small instances are given for the examples.
    - The CORS middleware is a function from the request and the response
      header to the response header. *)

From Stdlib Require Import ZArith NArith Ascii.
From stdpp Require Import base option list strings gmap fin_maps.

#[local] Set Warnings "-register-all".
Local Open Scope Z_scope.

(** ** Go strings: the functions of package [strings] used by the handlers *)

Module GoStrings.

(** [strings.Split(s, sep)] for a one-byte separator (the handlers split on
    a comma only).  The empty string splits into one empty field. *)
Fixpoint Split (s : string) (sep : ascii) : list string :=
  match s with
  | EmptyString => [EmptyString]
  | String c rest =>
      if decide (c = sep) then EmptyString :: Split rest sep
      else match Split rest sep with
           | x :: xs => String c x :: xs
           | [] => [String c EmptyString]
           end
  end.

Fixpoint hasPrefix (p s : string) : bool :=
  match p, s with
  | EmptyString, _ => true
  | String a p', String b s' => if decide (a = b) then hasPrefix p' s' else false
  | String _ _, EmptyString => false
  end.

Fixpoint drop (n : nat) (s : string) : string :=
  match n, s with
  | O, _ => s
  | S n', String _ s' => drop n' s'
  | S _, EmptyString => EmptyString
  end.

Fixpoint rev_append (s acc : string) : string :=
  match s with
  | EmptyString => acc
  | String c s' => rev_append s' (String c acc)
  end.

Definition rev (s : string) : string := rev_append s EmptyString.

Definition bytes (l : list N) : string :=
  fold_right (fun n s => String (ascii_of_N n) s) EmptyString l.

(** The UTF-8 encodings of the code points for which [unicode.IsSpace]
    holds: the six ASCII ones, U+0085, U+00A0, U+1680, U+2000 to U+200A,
    U+2028, U+2029, U+202F, U+205F and U+3000. *)
Definition spaces : list string :=
  map bytes
    ([ [9]; [10]; [11]; [12]; [13]; [32];
       [194; 133]; [194; 160]; [225; 154; 128] ]
     ++ map (fun k => [226; 128; 128 + k]) [0;1;2;3;4;5;6;7;8;9;10]
     ++ [ [226; 128; 168]; [226; 128; 169]; [226; 128; 175];
          [226; 129; 159]; [227; 128; 128] ])%N.

(** The length of the white-space rune [s] starts with, if any. *)
Definition leadingSpace (s : string) : option nat :=
  String.length <$> List.find (fun sp => hasPrefix sp s) spaces.

Definition trailingSpace (r : string) : option nat :=
  String.length <$> List.find (fun sp => hasPrefix (rev sp) r) spaces.

(** [strings.Join] *)
Fixpoint Join (elems : list string) (sep : string) : string :=
  match elems with
  | [] => EmptyString
  | [x] => x
  | x :: rest => x +:+ sep +:+ Join rest sep
  end.

(** Trimming is by recursion on a bound on the number of runes removed. *)
Fixpoint trimWith (f : string -> option nat) (fuel : nat) (s : string) : string :=
  match fuel with
  | O => s
  | S fuel' =>
      match f s with
      | Some n => trimWith f fuel' (drop n s)
      | None => s
      end
  end.

(** [strings.TrimSpace]: all leading and trailing white space removed. *)
Definition TrimSpace (s : string) : string :=
  let s1 := trimWith leadingSpace (String.length s) s in
  rev (trimWith trailingSpace (String.length s1) (rev s1)).

End GoStrings.

(** ** Dynamic values, errors and formatted text *)

(** A value of type [interface{}] as [encoding/json] produces it (the JWT
    header and claims are decoded JSON objects).  Only the dynamic type is
    inspected by the handlers; a [float64] is kept as its integer part. *)
Inductive iface : Type :=
| VNil
| VBool (b : bool)
| VFloat64 (z : Z)
| VString (s : string)
| VSlice (l : list iface)
| VMap (l : list (string * iface)).

(** A Go [error].  [Errorf] stands for the values of [fmt.Errorf] and
    [errors.New] built inside the handlers; the two package-level error
    values compared by identity have a constructor each; [LibError] is any
    other error value a library returns. *)
Inductive error : Type :=
| Errorf (format : string) (args : list iface)
| AddrError (Err Addr : string)                      (* *net.AddrError *)
| UnknownIssuerError (Issuer : string)               (* *UnknownIssuerError *)
| ValidationError (Inner : option error) (Errors : N) (* *jwt.ValidationError *)
| ErrSignatureInvalid                                (* jwt.ErrSignatureInvalid *)
| ErrInvalidXForwardedFor
| LibError (text : string).

(** The result of a Go function returning [(T, error)] where the value is
    used only when the error is [nil]. *)
Inductive result (T : Type) : Type :=
| Ok (v : T)
| Fail (err : error).
Arguments Ok {T} v.
Arguments Fail {T} err.

(** An argument of [fmt.Sprintf]/[fmt.Printf], and the formatted text. *)
Inductive fmtArg : Type :=
| AValue (v : iface)
| AError (e : error).

Record Fmt : Type := Sprintf { fmt_format : string; fmt_args : list fmtArg }.

(** ** The structured logger *)

Inductive Level : Type := DebugLevel | WarnLevel | ErrorLevel.

Inductive Field : Type :=
| Str (key val : string)
| Err (err : error).

Record LogEntry : Type :=
  Entry { entry_level : Level; entry_fields : list Field; entry_msg : string }.

(** ** Requests, the gin context and the server *)

(** [http.Header]: a map from canonical header name to the list of values. *)
Definition Header_Get (h : gmap string (list string)) (key : string) : string :=
  match h !! key with
  | Some (v :: _) => v
  | _ => EmptyString
  end.

Definition Header_Set (h : gmap string (list string)) (key value : string)
  : gmap string (list string) :=
  <[key := [value]]> h.

Record Request : Type :=
  mkRequest { RemoteAddr : string; Header : gmap string (list string) }.

Inductive ErrorType : Type := ErrorTypePrivate | ErrorTypePublic.

(** [http.StatusBadRequest] and the other status codes used. *)
Definition StatusBadRequest : Z := 400.
Definition StatusUnauthorized : Z := 401.
Definition StatusNotAcceptable : Z := 406.
Definition StatusInternalServerError : Z := 500.

(** What a handler can observe and change: the request of the gin context,
    the response written so far, the errors attached to the context, the
    requests handed to the upload engine ([handler.PostFile]), the server's
    log and the process's standard output. *)
Record State : Type := mkState {
  st_request : Request;
  st_status : option Z;
  st_json : option Fmt;
  st_errors : list (error * ErrorType);
  st_aborted : bool;
  st_engine : list Request;
  st_log : list LogEntry;
  st_stdout : list Fmt
}.

Definition initState (req : Request) : State :=
  mkState req None None [] false [] [] [].

(** ** The handler monad: state, and a panic as the other outcome *)

Inductive Res (A : Type) : Type :=
| Ret (a : A) (s : State)
| Panic (msg : string).
Arguments Ret {A} a s.
Arguments Panic {A} msg.

Definition M (A : Type) : Type := State -> Res A.

Definition ret {A} (a : A) : M A := fun s => Ret a s.

Definition bind {A B} (m : M A) (k : A -> M B) : M B :=
  fun s => match m s with
           | Ret a s' => k a s'
           | Panic msg => Panic msg
           end.

Definition panic {A} (msg : string) : M A := fun _ => Panic msg.

Declare Scope go_scope.
Delimit Scope go_scope with go.
Notation "x <- m ;; k" := (bind m (fun x => k))
  (at level 100, m at next level, right associativity) : go_scope.
Notation "m ;;; k" := (bind m (fun _ => k))
  (at level 100, right associativity) : go_scope.

Definition getRequest : M Request := fun s => Ret (st_request s) s.

Definition setRequest (r : Request) : M unit := fun s =>
  Ret tt (mkState r (st_status s) (st_json s) (st_errors s) (st_aborted s)
            (st_engine s) (st_log s) (st_stdout s)).

(** [req.Header.Set(key, value)] *)
Definition setHeader (key value : string) : M unit := fun s =>
  let r := st_request s in
  setRequest (mkRequest (RemoteAddr r) (Header_Set (Header r) key value)) s.

(** One entry appended to the server log: [serv.log.<Level>()...Msg(msg)]. *)
Definition logMsg (l : Level) (fields : list Field) (msg : string) : M unit := fun s =>
  Ret tt (mkState (st_request s) (st_status s) (st_json s) (st_errors s)
            (st_aborted s) (st_engine s) (st_log s ++ [Entry l fields msg])
            (st_stdout s)).

(** [fmt.Printf] *)
Definition Printf (format : string) (args : list fmtArg) : M unit := fun s =>
  Ret tt (mkState (st_request s) (st_status s) (st_json s) (st_errors s)
            (st_aborted s) (st_engine s) (st_log s)
            (st_stdout s ++ [Sprintf format args])).

(** [c.AbortWithError(code, err)]: the status is written, the chain is
    aborted and the error is attached to the context as a private error;
    [SetType] on the returned error changes the type of that last error. *)
Definition AbortWithError (code : Z) (err : error) : M unit := fun s =>
  Ret tt (mkState (st_request s) (Some code) (st_json s)
            (st_errors s ++ [(err, ErrorTypePrivate)]) true
            (st_engine s) (st_log s) (st_stdout s)).

(** [c.Error(err)] *)
Definition ctxError (err : error) : M unit := fun s =>
  Ret tt (mkState (st_request s) (st_status s) (st_json s)
            (st_errors s ++ [(err, ErrorTypePrivate)]) (st_aborted s)
            (st_engine s) (st_log s) (st_stdout s)).

Definition setLastType (t : ErrorType) (l : list (error * ErrorType))
  : list (error * ErrorType) :=
  match reverse l with
  | (e, _) :: before => reverse before ++ [(e, t)]
  | [] => []
  end.

Definition SetType (t : ErrorType) : M unit := fun s =>
  Ret tt (mkState (st_request s) (st_status s) (st_json s)
            (setLastType t (st_errors s)) (st_aborted s)
            (st_engine s) (st_log s) (st_stdout s)).

(** [c.AbortWithStatusJSON(code, obj)] *)
Definition AbortWithStatusJSON (code : Z) (obj : Fmt) : M unit := fun s =>
  Ret tt (mkState (st_request s) (Some code) (Some obj) (st_errors s) true
            (st_engine s) (st_log s) (st_stdout s)).

(** [handler.PostFile(c.Writer, c.Request)]: the request, as it is now, is
    handed to the upload engine. *)
Definition PostFile : M unit := fun s =>
  Ret tt (mkState (st_request s) (st_status s) (st_json s) (st_errors s)
            (st_aborted s) (st_engine s ++ [st_request s]) (st_log s)
            (st_stdout s)).

Local Open Scope go_scope.

(** ** Functions of other packages *)

(** The metadata codec.  [parseMeta] and [serializeMeta] belong to package
    [server] but live in another file; the handlers only call them, so the
    embedding takes them as operations of a class.  Both return a single
    value at their call sites: decoding has no error result. *)
Class MetadataCodec : Type := {
  parseMeta : string -> gmap string string;
  serializeMeta : gmap string string -> string
}.

(** Package [net].  [ParseIP] returns a [nil] IP ([None]) for text that is
    not an address, and [IPNet.Contains] accepts a [nil] IP;
    [SplitHostPort] fails with a [*net.AddrError] only, given here by its
    two fields. *)
Class NetLib : Type := {
  IP : Type;
  IPNet : Type;
  SplitHostPort : string -> (string * string) + (string * string);
  ParseIP : string -> option IP;
  IP_String : IP -> string;
  IPNet_Contains : IPNet -> option IP -> bool
}.

(** Package [github.com/dgrijalva/jwt-go]. *)
Inductive SigningMethod : Type :=
| SigningMethodHMAC
| SigningMethodRSA
| SigningMethodRSAPSS
| SigningMethodECDSA
| signingMethodNone.

Inductive Claims : Type :=
| MapClaims (m : gmap string iface)
| StandardClaims.

Record Token : Type := mkToken {
  Raw : string;
  Method : SigningMethod;
  TokenHeader : gmap string iface;
  TokenClaims : Claims;
  Signature : string;
  Valid : bool
}.

Definition ValidationErrorMalformed : N := 1.
Definition ValidationErrorUnverifiable : N := 2.
Definition ValidationErrorSignatureInvalid : N := 4.
Definition ValidationErrorClaimsInvalid : N := 512.

(** The three steps of the library that depend on the wire format, on the
    clock and on the hash: decoding a token string into a token and its
    three segments ([Parser.ParseUnverified]), the validation of the
    registered time claims ([Claims.Valid]) and the verification of a
    signature over the signing string with a key ([SigningMethod.Verify]). *)
Class JwtLib : Type := {
  ParseUnverified : string -> result (Token * (string * string * string));
  ClaimsValid : Claims -> option error;
  Verify : SigningMethod -> string -> string -> string -> option error
}.

Section Jwt.
Context {jwt : JwtLib}.

(** [jwt.Parse(tokenString, keyFunc)], after [Parser.ParseWithClaims] of
    the library with its default parser (no restriction on methods, claims
    validated): the key function's error is wrapped into a validation
    error unless it is one; a failed signature check replaces the inner
    error and sets the signature flag; the token is valid when no flag is
    set. *)
Definition Parse (tokenString : string) (keyFunc : Token -> result string)
  : result Token :=
  match ParseUnverified tokenString with
  | Fail err => Fail err
  | Ok (token, (p0, p1, p2)) =>
      match keyFunc token with
      | Fail (ValidationError inner errs) => Fail (ValidationError inner errs)
      | Fail err => Fail (ValidationError (Some err) ValidationErrorUnverifiable)
      | Ok key =>
          let vErr : option error * N :=
            match ClaimsValid (TokenClaims token) with
            | None => (None, 0%N)
            | Some (ValidationError inner errs) => (inner, errs)
            | Some err => (Some err, ValidationErrorClaimsInvalid)
            end in
          let vErr : option error * N :=
            match Verify (Method token) (p0 +:+ "." +:+ p1) p2 key with
            | Some err => (Some err, N.lor (snd vErr) ValidationErrorSignatureInvalid)
            | None => vErr
            end in
          if decide (snd vErr = 0%N)
          then Ok (mkToken (Raw token) (Method token) (TokenHeader token)
                     (TokenClaims token) p2 true)
          else Fail (ValidationError (fst vErr) (snd vErr))
      end
  end.
End Jwt.

(** Package [db] of this repository: [db.UpdateRow(conn, query, args...)]
    runs one statement against the store and returns its error, if any. *)
Class DbLib : Type := {
  DB : Type;
  UpdateRow : DB -> string -> list string -> DB * option error
}.

(** Package [github.com/tus/tusd/cmd/tusd/cli/hooks]: the hook types, and the
    events of package [events]. *)
Inductive HookType : Type :=
| HookPostFinish
| HookPostTerminate
| HookPostReceive
| HookPostCreate
| HookPreCreate.

Global Instance HookType_eq_dec : EqDecision HookType.
Proof. solve_decision. Defined.

Record FileInfo : Type := mkFileInfo { ID : string; MetaData : gmap string string }.

Record TusEvent : Type := mkTusEvent { Info : FileInfo; Type_ : HookType }.

(** ** The handlers of [tushandlers.go] *)

(** The keys of a map in the order of one [range] over it.  Go leaves the
    order unspecified; the two loops below return the same result for every
    order (lemmas [clientSetsRemoteIP_spec] and [reservedKey_spec]). *)
Definition rangeKeys (m : gmap string string) : list string :=
  (map_to_list m).*1.

Definition uploadMetadataHeader : string := "Upload-Metadata".
Definition remoteIPKey : string := "RemoteIP".

(** The loop of [addRemoteIPToMetadata] over the client's keys. *)
Fixpoint clientSetsRemoteIP (keys : list string) : bool :=
  match keys with
  | [] => false
  | k :: rest => if decide (k = remoteIPKey) then true else clientSetsRemoteIP rest
  end.

(** The loop of [processJwt] over the client's keys.  A Go [switch] does not
    fall through: the case ["account"] has an empty body, so the loop goes
    on; the case ["issuer"] returns the error for that key. *)
Fixpoint reservedKey (keys : list string) : option string :=
  match keys with
  | [] => None
  | k :: rest =>
      if decide (k = "account") then reservedKey rest
      else if decide (k = "issuer") then Some k
      else reservedKey rest
  end.

(** [isFatalJwtError]: only a validation error around an unknown-issuer
    error is not fatal. *)
Definition isFatalJwtError (err : error) : bool :=
  match err with
  | ValidationError (Some (UnknownIssuerError _)) _ => false
  | _ => true
  end.

Section Handlers.
Context {codec : MetadataCodec} {net : NetLib} {jwt : JwtLib}.

(** The part of the server's configuration the handlers read:
    [cfg.JwtSecretsByIssuer] and [cfg.Server.TrustedReverseProxyRanges]. *)
Record UploadServer : Type := mkServer {
  JwtSecretsByIssuer : gmap string string;
  TrustedReverseProxyRanges : list IPNet
}.

Variable serv : UploadServer.

(** [remoteIPisTrusted]: the loop over the configured ranges, then the
    method itself. *)
Fixpoint rangesContain (ranges : list IPNet) (remoteIP : option IP) : bool :=
  match ranges with
  | [] => false
  | trustedNet :: rest =>
      if IPNet_Contains trustedNet remoteIP then true
      else rangesContain rest remoteIP
  end.

Definition remoteIPisTrusted (remoteIP : option IP) : bool :=
  rangesContain (TrustedReverseProxyRanges serv) remoteIP.

(** [getDirectOrForwardedRemoteIP] *)
Definition getDirectOrForwardedRemoteIP : M (string * option error) :=
  req <- getRequest ;;
  match SplitHostPort (RemoteAddr req) with
  | inr (e, a) =>
      let err := AddrError e a in
      logMsg ErrorLevel [Err err] "Could not split address into host and port" ;;;
      ret (EmptyString, Some err)
  | inl (remoteIP, _) =>
      let forwardedFor := Header_Get (Header req) "X-Forwarded-For" in
      if decide (forwardedFor <> EmptyString) then
        if remoteIPisTrusted (ParseIP remoteIP) then
          let parts := GoStrings.Split forwardedFor "," in
          let forwardedForClient := GoStrings.TrimSpace (hd EmptyString parts) in
          match ParseIP forwardedForClient with
          | None =>
              let err := ErrInvalidXForwardedFor in
              logMsg ErrorLevel
                [Err err; Str "client" forwardedForClient; Str "remoteIP" remoteIP]
                "Couldn't use trusted X-Forwarded-For header" ;;;
              ret (EmptyString, Some err)
          | Some forwardedForIP => ret (IP_String forwardedForIP, None)
          end
        else
          logMsg WarnLevel
            [Str "X-Forwarded-For" forwardedFor; Str "remoteIP" remoteIP]
            "Untrusted remote attempted to override stored IP" ;;;
          ret (remoteIP, None)
      else ret (remoteIP, None)
  end.

(** [addRemoteIPToMetadata] *)
Definition addRemoteIPToMetadata : M (option error) :=
  req <- getRequest ;;
  let metadata := parseMeta (Header_Get (Header req) uploadMetadataHeader) in
  if clientSetsRemoteIP (rangeKeys metadata) then
    ret (Some (Errorf ("Metadata field " +:+ remoteIPKey +:+ " cannot be set by client") []))
  else
    r <- getDirectOrForwardedRemoteIP ;;
    match r with
    | (_, Some err) => ret (Some err)
    | (remoteIP, None) =>
        let metadata := <[remoteIPKey := remoteIP]> metadata in
        setHeader uploadMetadataHeader (serializeMeta metadata) ;;;
        ret None
    end.

(** [getSecretForToken], the key function handed to [jwt.Parse] *)
Definition getSecretForToken (token : Token) : result string :=
  match Method token with
  | SigningMethodHMAC =>
      match TokenClaims token with
      | MapClaims claims =>
          match claims !! "iss" with
          | None => Fail (Errorf "Issuer field 'iss' missing from JWT" [])
          | Some (VString issuerStr) =>
              match JwtSecretsByIssuer serv !! issuerStr with
              | None => Fail (UnknownIssuerError issuerStr)
              | Some secret => Ok secret
              end
          | Some _ => Fail (Errorf "Failed to coerce issuer to string" [])
          end
      | _ => Fail (Errorf "Failed to get claims" [])
      end
  | _ =>
      Fail (Errorf "Unexpected signing method: %v"
              [default VNil (TokenHeader token !! "alg")])
  end.

(** [processJwt].  The assertion [claims["iss"].(string)] has no second
    result: it panics when the claim is not a string. *)
Definition processJwt : M (option error) :=
  req <- getRequest ;;
  let metadata := parseMeta (Header_Get (Header req) "Upload-Metadata") in
  match reservedKey (rangeKeys metadata) with
  | Some k =>
      ret (Some (Errorf "Metadata field %#v cannot be set by client" [VString k]))
  | None =>
      let tokenString := default EmptyString (metadata !! "extjwt") in
      if decide (tokenString = EmptyString) then ret None
      else
        match Parse tokenString getSecretForToken with
        | Fail err => ret (Some err)
        | Ok token =>
            match TokenClaims token with
            | MapClaims claims =>
                if negb (Valid token) then ret None
                else
                  match claims !! "iss" with
                  | Some (VString issuer) =>
                      match claims !! "account" with
                      | Some (VString account) =>
                          let metadata := <["issuer" := issuer]> metadata in
                          let metadata := <["account" := account]> metadata in
                          setHeader "Upload-Metadata" (serializeMeta metadata) ;;;
                          Printf "metadata updated: account=%v issuer=%v\n"
                            [AValue (VString account); AValue (VString issuer)] ;;;
                          ret None
                      | _ => ret None
                      end
                  | _ => panic "interface conversion: interface {} is not string"
                  end
            | _ => ret None
            end
        end
  end.

(** [postFile]: the gin handler for upload creation. *)
Definition postFile : M unit :=
  err <- addRemoteIPToMetadata ;;
  match err with
  | Some (AddrError e a) =>
      AbortWithError StatusInternalServerError (AddrError e a) ;;;
      SetType ErrorTypePrivate
  | Some err => AbortWithError StatusNotAcceptable err
  | None =>
      err <- processJwt ;;
      match err with
      | Some err =>
          if isFatalJwtError err then
            match err with
            | ValidationError (Some ErrSignatureInvalid) errs =>
                let jwtValidationErr := ValidationError (Some ErrSignatureInvalid) errs in
                ctxError jwtValidationErr ;;;
                SetType ErrorTypePublic ;;;
                AbortWithStatusJSON StatusUnauthorized
                  (Sprintf "Failed to process EXTJWT: %s. Configured secret may be incorrect."
                     [AError jwtValidationErr])
            | _ =>
                AbortWithError StatusBadRequest err ;;;
                SetType ErrorTypePublic
            end
          else
            logMsg WarnLevel [Err err] "Failed to process EXTJWT" ;;;
            PostFile
      | None => PostFile
      end
  end.

End Handlers.

(** ** The CORS middleware *)

(** [http.Header.Add] and [http.Header.Del]. *)
Definition Header_Add (h : gmap string (list string)) (key value : string)
  : gmap string (list string) :=
  <[key := default [] (h !! key) ++ [value]]> h.

Definition Header_Del (h : gmap string (list string)) (key : string)
  : gmap string (list string) :=
  delete key h.

(** The set [customizedCors] builds from the configured slice: each origin
    becomes a key of a map to the empty struct. *)
Definition originSet (allowedOrigins : list string) : gmap string unit :=
  foldl (fun set origin => <[origin := tt]> set) ∅ allowedOrigins.

(** The handler [customizedCors] returns, as a function of the request and
    of the response header it updates ([c.Writer.Header()]). *)
Definition customizedCors (allowedOrigins : list string) (req : Request)
    (respHeader : gmap string (list string)) : gmap string (list string) :=
  let origin := Header_Get (Header req) "Origin" in
  let respHeader :=
    match originSet allowedOrigins !! origin with
    | Some _ => Header_Set respHeader "Access-Control-Allow-Origin" origin
    | None => Header_Del respHeader "Access-Control-Allow-Origin"
    end in
  Header_Add respHeader "Vary" "Origin".

(** ** The uploader-IP recorder *)

Section Recorder.
Context {store : DbLib}.

(** The store and the log the recorder's goroutines act on. *)
Record RecState : Type := mkRecState { rec_db : DB; rec_log : list LogEntry }.

Definition tabs : string := GoStrings.bytes [9; 9; 9; 9]%N.
Definition nl : string := GoStrings.bytes [10]%N.

(** The statement text of the raw string literal in [ipRecorder]. *)
Definition updateUploaderIP : string :=
  nl +:+ tabs +:+ GoStrings.bytes [9]%N +:+ "UPDATE uploads"
  +:+ nl +:+ tabs +:+ GoStrings.bytes [9]%N +:+ "SET uploader_ip = ?"
  +:+ nl +:+ tabs +:+ GoStrings.bytes [9]%N +:+ "WHERE id = ?"
  +:+ nl +:+ tabs.

(** The body of the goroutine started for a created upload; [event] is
    the variable of the loop iteration the closure captures. *)
Definition recordUploaderIP (event : TusEvent) (s : RecState) : RecState :=
  let ip := default EmptyString (MetaData (Info event) !! "RemoteIP") in
  let log1 :=
    rec_log s ++ [Entry DebugLevel [Str "id" (ID (Info event)); Str "ip" ip]
                    "Recording uploader IP"] in
  match UpdateRow (rec_db s) updateUploaderIP [ip; ID (Info event)] with
  | (db', Some err) =>
      mkRecState db' (log1 ++ [Entry ErrorLevel [Err err] "Failed to record uploader IP"])
  | (db', None) => mkRecState db' log1
  end.

(** [ipRecorder]: the loop over the events received until the channel is
    closed.  The result is the list of goroutines it starts, in the order
    they are started; each is a transformer of the recorder's state. *)
Fixpoint ipRecorder (channel : list TusEvent) : list (RecState -> RecState) :=
  match channel with
  | [] => []
  | event :: rest =>
      if decide (Type_ event = HookPostCreate)
      then recordUploaderIP event :: ipRecorder rest
      else ipRecorder rest
  end.

(** One schedule of the goroutines: each runs to its end, one after the
    other, in the given order. *)
Definition runAll (gs : list (RecState -> RecState)) (s : RecState) : RecState :=
  foldl (fun s g => g s) s gs.

End Recorder.

(** ** Schedules of the recorder's goroutines *)

Section RecorderSchedules.
Context {store : DbLib}.

(** The store after the statement of the recorder has run for [event]. *)
Definition writeOf (event : TusEvent) (db : DB) : DB :=
  fst (UpdateRow db updateUploaderIP
         [default EmptyString (MetaData (Info event) !! "RemoteIP"); ID (Info event)]).

(** The goroutines [ipRecorder] starts are detached and not synchronised:
    they may run in any order.  Each touches the store with one call of
    [UpdateRow], so for the store a schedule is an order of the
    goroutines; [db] is a store they can leave once all of them have
    run. *)
Definition reachableStore (gs : list (RecState -> RecState)) (s : RecState) (db : DB)
  : Prop :=
  exists order, order ≡ₚ gs /\ rec_db (runAll order s) = db.

(** The writes of two events can be run in either order. *)
Definition commutesWith (event other : TusEvent) : Prop :=
  forall db, writeOf other (writeOf event db) = writeOf event (writeOf other db).

End RecorderSchedules.

(** ** Instances of the libraries, for the examples *)

(** Standard base64 with padding, on byte values. *)
Module Base64.

Definition alphabet : string :=
  "ABCDEFGHIJKLMNOPQRSTUVWXYZabcdefghijklmnopqrstuvwxyz0123456789+/".

Definition digit (n : N) : ascii :=
  default "="%char (String.get (N.to_nat n) alphabet).

Definition value (c : N) : option N :=
  if (65 <=? c)%N && (c <=? 90)%N then Some (c - 65)%N
  else if (97 <=? c)%N && (c <=? 122)%N then Some (c - 71)%N
  else if (48 <=? c)%N && (c <=? 57)%N then Some (c + 4)%N
  else if (c =? 43)%N then Some 62%N
  else if (c =? 47)%N then Some 63%N
  else None.

Fixpoint toBytes (s : string) : list N :=
  match s with
  | EmptyString => []
  | String c s' => N_of_ascii c :: toBytes s'
  end.

Fixpoint encodeBytes (l : list N) : string :=
  match l with
  | [] => EmptyString
  | [a] =>
      String (digit (a / 4)) (String (digit (a mod 4 * 16)) "==")
  | [a; b] =>
      String (digit (a / 4))
        (String (digit (a mod 4 * 16 + b / 16))
           (String (digit (b mod 16 * 4)) "="))
  | a :: b :: c :: rest =>
      String (digit (a / 4))
        (String (digit (a mod 4 * 16 + b / 16))
           (String (digit (b mod 16 * 4 + c / 64))
              (String (digit (c mod 64)) (encodeBytes rest))))
  end%N.

Definition EncodeToString (s : string) : string := encodeBytes (toBytes s).

Definition quad (a b c d : N) : option (list N) :=
  va ← value a; vb ← value b; vc ← value c; vd ← value d;
  Some [va * 4 + vb / 16; vb mod 16 * 16 + vc / 4; vc mod 4 * 64 + vd]%N.

Fixpoint decodeBytes (l : list N) : option (list N) :=
  match l with
  | [] => Some []
  | a :: b :: c :: d :: rest =>
      match rest with
      | [] =>
          if (d =? 61)%N then
            if (c =? 61)%N then take 1 <$> quad a b 65 65
            else take 2 <$> quad a b c 65
          else quad a b c d
      | _ => q ← quad a b c d; (q ++.) <$> decodeBytes rest
      end
  | _ => None
  end.

Definition DecodeString (s : string) : option string :=
  GoStrings.bytes <$> decodeBytes (toBytes s).

End Base64.

(** Modelled from the spec: [parseMeta] and [serializeMeta], the metadata
    codec of package [server], whose file is not among the sources.  The
    header is a comma-separated list of entries, each a key and the base64
    encoding of its value separated by a space; an entry with an empty
    value may omit the encoding; an empty header decodes to the empty
    metadata.  The call sites take a single result, so an entry that cannot
    be decoded contributes nothing.  Encoding lists the entries in the order
    of the keys. *)
Module SpecCodec.

Definition parseEntry (element : string) : option (string * string) :=
  match GoStrings.Split (GoStrings.TrimSpace element) " " with
  | [key] => if decide (key = EmptyString) then None else Some (key, EmptyString)
  | [key; enc] =>
      if decide (key = EmptyString) then None
      else (fun v => (key, v)) <$> Base64.DecodeString enc
  | _ => None
  end.

Definition decode (header : string) : gmap string string :=
  foldl (fun m element =>
           match parseEntry element with
           | Some (k, v) => <[k := v]> m
           | None => m
           end)
    ∅ (GoStrings.Split header ",").

Definition encode (m : gmap string string) : string :=
  GoStrings.Join
    (map (fun '(k, v) => k +:+ " " +:+ Base64.EncodeToString v) (map_to_list m)) ",".

Definition codec : MetadataCodec :=
  {| parseMeta := decode; serializeMeta := encode |}.

End SpecCodec.

(** The IPv4 fragment of package [net]: addresses in dotted-decimal form,
    [host:port] without brackets, and networks given by an address and a
    prefix length.  Text in any other form is not an address here. *)
Module IPv4.

Definition digitValue (c : ascii) : option N :=
  let n := N_of_ascii c in
  if (48 <=? n)%N && (n <=? 57)%N then Some (n - 48)%N else None.

Fixpoint decimal (acc : N) (s : string) : option N :=
  match s with
  | EmptyString => Some acc
  | String c s' => d ← digitValue c; decimal (acc * 10 + d)%N s'
  end.

(** One field of a dotted-decimal address: one to three digits, no leading
    zero, at most 255. *)
Definition field (s : string) : option N :=
  match s with
  | EmptyString => None
  | String "0" (String _ _) => None
  | _ =>
      if (3 <? String.length s)%nat then None
      else n ← decimal 0 s; if (n <=? 255)%N then Some n else None
  end.

Definition parse (s : string) : option (list N) :=
  match GoStrings.Split s "." with
  | [a; b; c; d] =>
      a ← field a; b ← field b; c ← field c; d ← field d; Some [a; b; c; d]
  | _ => None
  end.

Definition showDigit (n : N) : ascii := ascii_of_N (48 + n).

Definition showByte (n : N) : string :=
  if (n <? 10)%N then String (showDigit n) EmptyString
  else if (n <? 100)%N then
    String (showDigit (n / 10)) (String (showDigit (n mod 10)) EmptyString)
  else
    String (showDigit (n / 100))
      (String (showDigit (n / 10 mod 10)) (String (showDigit (n mod 10)) EmptyString)).

Definition show (ip : list N) : string :=
  GoStrings.Join (map showByte ip) ".".

Definition toN (ip : list N) : N := foldl (fun acc b => acc * 256 + b)%N 0%N ip.

(** A network [a.b.c.d/len]. *)
Definition contains (net : list N * N) (ip : option (list N)) : bool :=
  match ip with
  | None => false
  | Some ip =>
      let shift := (32 - snd net)%N in
      (N.shiftr (toN ip) shift =? N.shiftr (toN (fst net)) shift)%N
  end.

Definition hasByte (c : ascii) (s : string) : bool :=
  match GoStrings.Split s c with
  | [_] => false
  | _ => true
  end.

Definition splitHostPort (hostport : string)
  : (string * string) + (string * string) :=
  if hasByte "[" hostport || hasByte "]" hostport
  then inr ("unexpected '[' in address", hostport)
  else match GoStrings.Split hostport ":" with
       | [_] => inr ("missing port in address", hostport)
       | [host; port] => inl (host, port)
       | _ => inr ("too many colons in address", hostport)
       end.

Definition lib : NetLib :=
  {| IP := list N;
     IPNet := list N * N;
     SplitHostPort := splitHostPort;
     ParseIP := parse;
     IP_String := show;
     IPNet_Contains := contains |}.

End IPv4.

(** A stand-in for the JWT library with tokens written in clear text:
    [alg.claims.signature], the claims being [key=value] pairs separated by
    semicolons (a key alone is a claim that is not a string), no registered
    time claim, and a signature that verifies when it is the key itself. *)
Module PlainJwt.

Definition method (alg : string) : option SigningMethod :=
  if decide (alg ∈ ["HS256"; "HS384"; "HS512"]) then Some SigningMethodHMAC
  else if decide (alg ∈ ["RS256"; "RS384"; "RS512"]) then Some SigningMethodRSA
  else if decide (alg ∈ ["PS256"; "PS384"; "PS512"]) then Some SigningMethodRSAPSS
  else if decide (alg ∈ ["ES256"; "ES384"; "ES512"]) then Some SigningMethodECDSA
  else if decide (alg = "none") then Some signingMethodNone
  else None.

Definition claim (m : gmap string iface) (text : string) : gmap string iface :=
  match GoStrings.Split text "=" with
  | [k; v] => <[k := VString v]> m
  | [k] => if decide (k = EmptyString) then m else <[k := VBool true]> m
  | _ => m
  end.

Definition parseUnverified (tokenString : string)
  : result (Token * (string * string * string)) :=
  match GoStrings.Split tokenString "." with
  | [alg; claims; sig] =>
      match method alg with
      | Some m =>
          Ok (mkToken tokenString m
                {[ "alg" := VString alg; "typ" := VString "JWT" ]}
                (MapClaims (foldl claim ∅ (GoStrings.Split claims ";")))
                EmptyString false,
              (alg, claims, sig))
      | None => Fail (ValidationError None ValidationErrorUnverifiable)
      end
  | _ => Fail (ValidationError None ValidationErrorMalformed)
  end.

Definition verify (m : SigningMethod) (signingString signature key : string)
  : option error :=
  match m with
  | SigningMethodHMAC =>
      if decide (signature = key) then None else Some ErrSignatureInvalid
  | _ => Some (LibError "key is of invalid type")
  end.

Definition lib : JwtLib :=
  {| ParseUnverified := parseUnverified;
     ClaimsValid := fun _ => None;
     Verify := verify |}.

End PlainJwt.

(** The same stand-in with the signature segment in base64 and checked the
    way [SigningMethodHMAC.Verify] checks it: the segment is decoded first
    and a segment that does not decode is reported with the decoder's
    error; a decoded signature verifies when it is the key. *)
Module EncodedJwt.

Definition verify (m : SigningMethod) (signingString signature key : string)
  : option error :=
  match m with
  | SigningMethodHMAC =>
      match Base64.DecodeString signature with
      | None => Some (LibError "illegal base64 data")
      | Some sig => if decide (sig = key) then None else Some ErrSignatureInvalid
      end
  | _ => Some (LibError "key is of invalid type")
  end.

Definition lib : JwtLib :=
  {| ParseUnverified := PlainJwt.parseUnverified;
     ClaimsValid := fun _ => None;
     Verify := verify |}.

End EncodedJwt.

(** Modelled from the spec: the persistent store behind [db.UpdateRow], a
    table of upload records identified by upload ID with a mutable
    [uploader_ip] field.  The statement of the recorder sets the field of
    the record whose ID is the second argument; a missing record is an
    error and changes nothing. *)
Module TableStore.

Definition updateRow (db : gmap string string) (query : string) (args : list string)
  : gmap string string * option error :=
  match args with
  | [ip; id] =>
      match db !! id with
      | Some _ => (<[id := ip]> db, None)
      | None => (db, Some (LibError "no row was updated"))
      end
  | _ => (db, Some (LibError "wrong number of arguments"))
  end.

Definition lib : DbLib := {| DB := gmap string string; UpdateRow := updateRow |}.

End TableStore.

(** ** Outcomes of a request, as the theorems state them *)

(** [s'] is [s] after the request was rejected with status [code]: the
    status is written and the chain aborted, the request still carries the
    headers it had in [s], and nothing more was handed to the upload
    engine. *)
Definition rejected (code : Z) (s s' : State) : Prop :=
  st_status s' = Some code /\ st_aborted s' = true
  /\ st_request s' = st_request s /\ st_engine s' = st_engine s.

(** [s'] is [s] after the request went on to the upload engine as it was in
    [s]: no status is written by the middleware and the request is handed
    over with its headers unchanged. *)
Definition proceeded (s s' : State) : Prop :=
  st_status s' = st_status s /\ st_aborted s' = st_aborted s
  /\ st_request s' = st_request s /\ st_engine s' = st_engine s ++ [st_request s].

(** [s] after [c.AbortWithError(code, err)] and, for a public error,
    [SetType]. *)
Definition abortedWith (code : Z) (err : error) (t : ErrorType) (s : State) : State :=
  mkState (st_request s) (Some code) (st_json s) (st_errors s ++ [(err, t)]) true
    (st_engine s) (st_log s) (st_stdout s).

(** [s] with one more log entry. *)
Definition logged (l : Level) (fields : list Field) (msg : string) (s : State) : State :=
  mkState (st_request s) (st_status s) (st_json s) (st_errors s) (st_aborted s)
    (st_engine s) (st_log s ++ [Entry l fields msg]) (st_stdout s).

(** The value a handler returns and the state it leaves, when it returns. *)
Definition returned {A} (r : Res A) : option A :=
  match r with Ret a _ => Some a | Panic _ => None end.

Definition finalState {A} (r : Res A) : option State :=
  match r with Ret _ s => Some s | Panic _ => None end.

(** The state a handler leaves, the state itself when it panics. *)
Definition exec {A} (m : M A) (s : State) : State :=
  match m s with Ret _ s' => s' | Panic _ => s end.

(** [s] with the request's [X-Forwarded-For] header set to [value]. *)
Definition withForwarded (value : string) (s : State) : State :=
  exec (setHeader "X-Forwarded-For" value) s.

(** The metadata a handler decodes from the request's header. *)
Definition clientMetadata `{!MetadataCodec} (s : State) : gmap string string :=
  parseMeta (Header_Get (Header (st_request s)) "Upload-Metadata").

(** [s] with more log entries. *)
Definition appendLog (entries : list LogEntry) (s : State) : State :=
  mkState (st_request s) (st_status s) (st_json s) (st_errors s) (st_aborted s)
    (st_engine s) (st_log s ++ entries) (st_stdout s).

(** [s] with the metadata header overwritten by the encoding of [metadata]. *)
Definition withMetadata `{!MetadataCodec} (metadata : gmap string string) (s : State)
  : State :=
  exec (setHeader "Upload-Metadata" (serializeMeta metadata)) s.

(** [s] after [processJwt] has injected a verified identity: the header is
    overwritten with both fields inserted and one line is printed. *)
Definition identified `{!MetadataCodec} (issuer account : string) (s : State) : State :=
  exec (Printf "metadata updated: account=%v issuer=%v\n"
          [AValue (VString account); AValue (VString issuer)])
    (withMetadata (<["account" := account]> (<["issuer" := issuer]> (clientMetadata s))) s).

(** What a step between [s] and [s'] may not touch: the response, the
    errors of the context, the calls to the engine, the peer address and
    every request header but the metadata one. *)
Definition onlyMetadataChanged (s s' : State) : Prop :=
  st_status s' = st_status s /\ st_json s' = st_json s
  /\ st_errors s' = st_errors s /\ st_aborted s' = st_aborted s
  /\ st_engine s' = st_engine s
  /\ RemoteAddr (st_request s') = RemoteAddr (st_request s)
  /\ forall key, key <> "Upload-Metadata" ->
       Header (st_request s') !! key = Header (st_request s) !! key.

(** [s] after the request was answered with status 401. *)
Definition unauthorizedWith (errs : N) (s : State) : State :=
  mkState (st_request s) (Some StatusUnauthorized)
    (Some (Sprintf "Failed to process EXTJWT: %s. Configured secret may be incorrect."
             [AError (ValidationError (Some ErrSignatureInvalid) errs)]))
    (st_errors s ++ [(ValidationError (Some ErrSignatureInvalid) errs, ErrorTypePublic)])
    true (st_engine s) (st_log s) (st_stdout s).

(** What [postFile] does with the result of the claim-processing step. *)
Definition dispatched (r : option error) (s : State) : State :=
  match r with
  | None => exec PostFile s
  | Some err =>
      if isFatalJwtError err then
        match err with
        | ValidationError (Some ErrSignatureInvalid) errs => unauthorizedWith errs s
        | _ => abortedWith StatusBadRequest err ErrorTypePublic s
        end
      else exec PostFile (logged WarnLevel [Err err] "Failed to process EXTJWT" s)
  end.

(** ** Fixtures: a configured server, requests, tokens and events *)

Module Fixtures.

#[local] Existing Instance SpecCodec.codec.
#[local] Existing Instance IPv4.lib.
#[local] Existing Instance PlainJwt.lib.
#[local] Existing Instance TableStore.lib.

(** Proxies in [10.0.0.0/8] are trusted; one issuer is configured. *)
Definition server : UploadServer :=
  mkServer {[ "gateway" := "s3cret" ]} [([10; 0; 0; 0]%N, 8%N)].

(** A request from [addr] with the given client metadata and, when not
    empty, the given [X-Forwarded-For] header. *)
Definition request (addr : string) (meta : gmap string string) (forwarded : string)
  : Request :=
  let h := Header_Set ∅ "Upload-Metadata" (serializeMeta meta) in
  mkRequest addr
    (if decide (forwarded = EmptyString) then h
     else Header_Set h "X-Forwarded-For" forwarded).

Definition resolve (addr forwarded : string) : Res (string * option error) :=
  getDirectOrForwardedRemoteIP server (initState (request addr ∅ forwarded)).

Definition forgedIP : State :=
  initState (request "1.2.3.4:5555" {[ "RemoteIP" := "1.1.1.1" ]} EmptyString).

Definition forgedAccount : State :=
  initState (request "1.2.3.4:5555" {[ "account" := "admin" ]} EmptyString).

Definition trustedGarbage : State :=
  initState (request "10.0.0.1:5555" ∅ "not-an-ip").

Definition untrustedForwarded : State :=
  initState (request "1.2.3.4:5555" ∅ "9.9.9.9").

(** A request from [1.2.3.4] carrying the given token. *)
Definition withToken (tokenString : string) : State :=
  initState (request "1.2.3.4:5555" {[ "extjwt" := tokenString ]} EmptyString).

(** The same request once [addRemoteIPToMetadata] has run. *)
Definition afterIP (tokenString : string) : State :=
  exec (addRemoteIPToMetadata server) (withToken tokenString).

Definition rsaToken : string := "RS256.iss=gateway;account=alice.s3cret".

Definition strangerToken : string := "HS256.iss=stranger;account=alice.guess".

Definition forgedToken : string := "HS256.iss=gateway;account=alice.guess".

Definition anonymousToken : string := "HS256.iss=gateway;account.s3cret".

(** The events of one upload, and a store that holds its record. *)
Definition created : TusEvent :=
  mkTusEvent (mkFileInfo "upload-1" {[ "RemoteIP" := "9.9.9.9" ]}) HookPostCreate.

Definition completed : TusEvent :=
  mkTusEvent (mkFileInfo "upload-1" {[ "RemoteIP" := "6.6.6.6" ]}) HookPostFinish.

Definition createdBare : TusEvent :=
  mkTusEvent (mkFileInfo "upload-2" ∅) HookPostCreate.

Definition store0 : RecState :=
  mkRecState ({[ "upload-1" := "unset"; "upload-2" := "unset" ]} : gmap string string) [].

(** The same server with no trusted proxy range. *)
Definition openServer : UploadServer :=
  mkServer {[ "gateway" := "s3cret" ]} [].

Definition corsOrigins : list string := ["https://chat.example.org"; "*"].

Definition corsRequest (origin : string) : Request :=
  mkRequest "1.2.3.4:5555" (Header_Set ∅ "Origin" origin).

(** A response header a previous middleware has written to. *)
Definition staleResponse : gmap string (list string) :=
  {[ "Access-Control-Allow-Origin" := ["https://old.example.org"];
     "Vary" := ["Accept-Encoding"];
     "Content-Type" := ["text/plain"] ]}.

Definition plain : State :=
  initState (request "1.2.3.4:5555" {[ "filename" := "a.txt" ]} EmptyString).

Definition badPeer : State :=
  initState (request "1.2.3.4" {[ "filename" := "a.txt" ]} EmptyString).

Definition proxied : State :=
  initState (request "10.0.0.1:5555" ∅ "9.9.9.9, 8.8.8.8").

Definition validToken : string := "HS256.iss=gateway;account=alice.s3cret".

Definition noIssuerToken : string := "HS256.account=alice.s3cret".

(** A token of the configured issuer whose signature segment is not
    base64 text. *)
Definition garbledToken : string := "HS256.iss=gateway;account=alice.!!!".

(** A second upload, created with another address. *)
Definition createdOther : TusEvent :=
  mkTusEvent (mkFileInfo "upload-2" {[ "RemoteIP" := "7.7.7.7" ]}) HookPostCreate.

End Fixtures.

(** * Theorems *)

(** ** The library functions and the instances on sample inputs *)

Import Fixtures.

Example Split_chain :
  GoStrings.Split "9.9.9.9, 8.8.8.8" "," = ["9.9.9.9"; " 8.8.8.8"].
Proof. reflexivity. Qed.

Example TrimSpace_token : GoStrings.TrimSpace "  9.9.9.9	 " = "9.9.9.9".
Proof. vm_compute. reflexivity. Qed.

Example base64_encode : Base64.EncodeToString "1.1.1.1" = "MS4xLjEuMQ==".
Proof. reflexivity. Qed.

Example base64_decode : Base64.DecodeString "MS4xLjEuMQ==" = Some "1.1.1.1".
Proof. vm_compute. reflexivity. Qed.

Example decode_entry :
  SpecCodec.decode "filename aGVsbG8udHh0, RemoteIP MS4xLjEuMQ=="
  = {[ "filename" := "hello.txt"; "RemoteIP" := "1.1.1.1" ]}.
Proof. vm_compute. reflexivity. Qed.

Example encode_decode :
  SpecCodec.decode (SpecCodec.encode {[ "a" := "x"; "b" := EmptyString ]})
  = {[ "a" := "x"; "b" := EmptyString ]}.
Proof. vm_compute. reflexivity. Qed.

Example parse_ipv4 : IPv4.parse "10.0.0.1" = Some [10; 0; 0; 1]%N.
Proof. vm_compute. reflexivity. Qed.

Example show_ipv4 : IPv4.show [9; 9; 9; 9]%N = "9.9.9.9".
Proof. vm_compute. reflexivity. Qed.

Example parse_not_an_ip : IPv4.parse "not-an-ip" = None.
Proof. vm_compute. reflexivity. Qed.

Example contains_10_8 :
  IPv4.contains ([10; 0; 0; 0]%N, 8%N) (IPv4.parse "10.0.0.1") = true
  /\ IPv4.contains ([10; 0; 0; 0]%N, 8%N) (IPv4.parse "1.2.3.4") = false.
Proof. vm_compute. split; reflexivity. Qed.

(** The trust table of the specification. *)
Example untrusted_direct :
  returned (resolve "1.2.3.4:5555" "9.9.9.9") = Some ("1.2.3.4", None).
Proof. vm_compute. reflexivity. Qed.

Example trusted_forwarded :
  returned (resolve "10.0.0.1:5555" "9.9.9.9, 8.8.8.8") = Some ("9.9.9.9", None).
Proof. vm_compute. reflexivity. Qed.

Example trusted_garbage :
  returned (resolve "10.0.0.1:5555" "not-an-ip")
  = Some (EmptyString, Some ErrInvalidXForwardedFor).
Proof. vm_compute. reflexivity. Qed.

(** ** Properties of the two loops over the client's keys *)

Lemma rangeKeys_elem (m : gmap string string) (k : string) :
  k ∈ rangeKeys m <-> is_Some (m !! k).
Proof.
  unfold rangeKeys. rewrite list_elem_of_fmap. split.
  - intros [[k' v] [-> Hin]]. apply elem_of_map_to_list in Hin. eauto.
  - intros [v Hv]. exists (k, v). split; [reflexivity |].
    by apply elem_of_map_to_list.
Qed.

Lemma clientSetsRemoteIP_elem (keys : list string) :
  clientSetsRemoteIP keys = true <-> remoteIPKey ∈ keys.
Proof.
  induction keys as [| k rest IH]; simpl.
  - split; [discriminate | intros H; inversion H].
  - destruct (decide (k = remoteIPKey)) as [-> | Hne].
    + split; [intros _; left | reflexivity].
    + rewrite IH. split; [by right |].
      intros H. apply elem_of_cons in H as [H | H]; [congruence | done].
Qed.

(** The first loop finds the key exactly when the client supplied it,
    whatever the order of iteration. *)
Lemma clientSetsRemoteIP_spec (m : gmap string string) :
  clientSetsRemoteIP (rangeKeys m) = true <-> is_Some (m !! "RemoteIP").
Proof. rewrite clientSetsRemoteIP_elem. apply rangeKeys_elem. Qed.

Lemma clientSetsRemoteIP_absent (m : gmap string string) :
  m !! "RemoteIP" = None -> clientSetsRemoteIP (rangeKeys m) = false.
Proof.
  intros Hnone. destruct (clientSetsRemoteIP (rangeKeys m)) eqn:E; [| reflexivity].
  apply clientSetsRemoteIP_spec in E as [v Hv]. congruence.
Qed.

Lemma reservedKey_elem (keys : list string) :
  reservedKey keys = if decide ("issuer" ∈ keys) then Some "issuer" else None.
Proof.
  induction keys as [| k rest IH]; simpl.
  - destruct (decide ("issuer" ∈ [])) as [H | _]; [inversion H | reflexivity].
  - destruct (decide (k = "account")) as [-> | Hacc].
    + rewrite IH. destruct (decide ("issuer" ∈ rest)) as [Hin | Hnin].
      * rewrite decide_True; [reflexivity | by right].
      * rewrite decide_False; [reflexivity |].
        intros H. apply elem_of_cons in H as [H | H]; [discriminate | done].
    + destruct (decide (k = "issuer")) as [-> | Hiss].
      * rewrite decide_True; [reflexivity | left].
      * rewrite IH. destruct (decide ("issuer" ∈ rest)) as [Hin | Hnin].
        -- rewrite decide_True; [reflexivity | by right].
        -- rewrite decide_False; [reflexivity |].
           intros H. apply elem_of_cons in H as [H | H]; [congruence | done].
Qed.

(** The second loop reports a key exactly when the client supplied
    [issuer]; a client-supplied [account] never stops it. *)
Lemma reservedKey_spec (m : gmap string string) :
  reservedKey (rangeKeys m)
  = match m !! "issuer" with Some _ => Some "issuer" | None => None end.
Proof.
  rewrite reservedKey_elem.
  destruct (decide ("issuer" ∈ rangeKeys m)) as [Hin | Hnin].
  - apply rangeKeys_elem in Hin as [v ->]. reflexivity.
  - destruct (m !! "issuer") eqn:E; [| reflexivity].
    exfalso. apply Hnin, rangeKeys_elem. eauto.
Qed.

Lemma Split_nonempty (s : string) (sep : ascii) : GoStrings.Split s sep <> [].
Proof.
  destruct s as [| c rest]; simpl; [discriminate |].
  destruct (decide (c = sep)); [discriminate |].
  destruct (GoStrings.Split rest sep); discriminate.
Qed.

(** ** Properties of the handlers *)

Lemma setLastType_snoc (t t0 : ErrorType) (e : error) (l : list (error * ErrorType)) :
  setLastType t (l ++ [(e, t0)]) = l ++ [(e, t)].
Proof.
  unfold setLastType. rewrite reverse_app. simpl.
  by rewrite reverse_involutive.
Qed.

Lemma lor_flag_nonzero (errs flag : N) : flag <> 0%N -> N.lor errs flag <> 0%N.
Proof. intros Hflag Hz. apply N.lor_eq_0_iff in Hz as [_ Hz]. done. Qed.

Section Properties.
Context {codec : MetadataCodec} {net : NetLib} {jwt : JwtLib}.
Variable serv : UploadServer.

(** *** The address resolver *)

(** Without a forwarded-address header (absent or empty) the resolver
    returns the direct peer's host, whatever ranges are trusted, and leaves
    the state, the log included, as it is. *)
Lemma resolver_direct (s : State) (host port : string) :
  SplitHostPort (RemoteAddr (st_request s)) = inl (host, port) ->
  Header_Get (Header (st_request s)) "X-Forwarded-For" = EmptyString ->
  getDirectOrForwardedRemoteIP serv s = Ret (host, None) s.
Proof.
  intros Hsplit Hfwd.
  unfold getDirectOrForwardedRemoteIP, bind, getRequest.
  rewrite Hsplit, Hfwd. reflexivity.
Qed.

(** The resolver fails in two ways only, and never panics. *)
Lemma resolver_total (s : State) :
  exists r s', getDirectOrForwardedRemoteIP serv s = Ret r s'
    /\ st_request s' = st_request s /\ st_engine s' = st_engine s
    /\ (snd r = None \/ snd r = Some ErrInvalidXForwardedFor
        \/ exists e a, snd r = Some (AddrError e a)).
Proof.
  unfold getDirectOrForwardedRemoteIP, bind, getRequest.
  destruct (SplitHostPort _) as [[host port] | [e a]]; simpl.
  - destruct (decide (_ <> EmptyString)); simpl; [| eauto 10].
    destruct (remoteIPisTrusted _ _); simpl; [| eauto 10].
    destruct (ParseIP (GoStrings.TrimSpace _)); simpl; eauto 10.
  - eauto 12.
Qed.

(** *** Reserved fields *)

Lemma addRemoteIP_client_key (s : State) :
  is_Some (clientMetadata s !! "RemoteIP") ->
  addRemoteIPToMetadata serv s
  = Ret (Some (Errorf "Metadata field RemoteIP cannot be set by client" [])) s.
Proof.
  intros Hkey. apply clientSetsRemoteIP_spec in Hkey.
  unfold addRemoteIPToMetadata, bind, getRequest.
  unfold clientMetadata in Hkey. unfold uploadMetadataHeader.
  rewrite Hkey. reflexivity.
Qed.

(** With no client-supplied [RemoteIP] and a resolved address, the step
    writes the header back with the address under [RemoteIP]. *)
Lemma addRemoteIP_injects (s s1 : State) (remoteIP : string) :
  clientMetadata s !! "RemoteIP" = None ->
  getDirectOrForwardedRemoteIP serv s = Ret (remoteIP, None) s1 ->
  addRemoteIPToMetadata serv s
  = bind (setHeader "Upload-Metadata"
            (serializeMeta (<["RemoteIP" := remoteIP]> (clientMetadata s))))
      (fun _ => ret None) s1.
Proof.
  intros Hkey Hres. unfold addRemoteIPToMetadata, bind at 1 2, getRequest.
  unfold clientMetadata in *. unfold uploadMetadataHeader.
  rewrite (clientSetsRemoteIP_absent _ Hkey), Hres. reflexivity.
Qed.

(** C1 (as amended): a client-supplied [RemoteIP] key is rejected with
    status 406 (Not Acceptable), the error is attached to the context as
    a private error, and the request keeps the headers it arrived with:
    nothing is written back and the upload engine is not called. *)
Theorem postFile_client_RemoteIP_rejected (s : State) :
  is_Some (clientMetadata s !! "RemoteIP") ->
  exists s', postFile serv s = Ret tt s'
    /\ rejected StatusNotAcceptable s s'
    /\ st_errors s'
       = st_errors s
         ++ [(Errorf "Metadata field RemoteIP cannot be set by client" [],
              ErrorTypePrivate)]
    /\ st_log s' = st_log s.
Proof.
  intros Hkey. unfold postFile, bind.
  rewrite (addRemoteIP_client_key s Hkey).
  eexists. split; [reflexivity |].
  repeat split; reflexivity.
Qed.

(** *** The library's [Parse] and the key function *)

Lemma getSecretForToken_Ok (token : Token) (key : string) :
  getSecretForToken serv token = Ok key ->
  Method token = SigningMethodHMAC
  /\ exists claims issuer,
       TokenClaims token = MapClaims claims
       /\ claims !! "iss" = Some (VString issuer)
       /\ JwtSecretsByIssuer serv !! issuer = Some key.
Proof.
  unfold getSecretForToken. intros Hget.
  destruct (Method token); try discriminate.
  destruct (TokenClaims token) as [claims |]; try discriminate.
  destruct (claims !! "iss") as [[| | | issuer | |] |] eqn:Hiss; try discriminate.
  destruct (JwtSecretsByIssuer serv !! issuer) as [secret |] eqn:Hsec;
    try discriminate.
  injection Hget as <-. eauto 10.
Qed.

Lemma getSecretForToken_not_HMAC (token : Token) :
  Method token <> SigningMethodHMAC ->
  getSecretForToken serv token
  = Fail (Errorf "Unexpected signing method: %v"
            [default VNil (TokenHeader token !! "alg")]).
Proof.
  unfold getSecretForToken. intros Hm. by destruct (Method token).
Qed.

Lemma getSecretForToken_unknown_issuer (token : Token) claims issuer :
  Method token = SigningMethodHMAC ->
  TokenClaims token = MapClaims claims ->
  claims !! "iss" = Some (VString issuer) ->
  JwtSecretsByIssuer serv !! issuer = None ->
  getSecretForToken serv token = Fail (UnknownIssuerError issuer).
Proof.
  unfold getSecretForToken. intros -> -> -> ->. reflexivity.
Qed.

Lemma getSecretForToken_known_issuer (token : Token) claims issuer secret :
  Method token = SigningMethodHMAC ->
  TokenClaims token = MapClaims claims ->
  claims !! "iss" = Some (VString issuer) ->
  JwtSecretsByIssuer serv !! issuer = Some secret ->
  getSecretForToken serv token = Ok secret.
Proof.
  unfold getSecretForToken. intros -> -> -> ->. reflexivity.
Qed.

(** A token accepted by [Parse] is the decoded one, marked valid, and the
    key function accepted it. *)
Lemma Parse_Ok (tokenString : string) (keyFunc : Token -> result string)
    (token : Token) :
  Parse tokenString keyFunc = Ok token ->
  exists token0 p key,
    ParseUnverified tokenString = Ok (token0, p)
    /\ keyFunc token0 = Ok key
    /\ TokenClaims token = TokenClaims token0
    /\ Method token = Method token0
    /\ Valid token = true.
Proof.
  unfold Parse. intros Hparse.
  destruct (ParseUnverified tokenString) as [[token0 [[p0 p1] p2]] |] eqn:Hp;
    [| discriminate].
  destruct (keyFunc token0) as [key | err] eqn:Hk.
  - destruct (decide _); [| discriminate].
    injection Hparse as <-. exists token0, (p0, p1, p2), key. done.
  - destruct err; discriminate.
Qed.

(** An issuer accepted through [Parse] is configured in the registry, and
    its [iss] claim is a string. *)
Lemma Parse_Ok_issuer (tokenString : string) (token : Token) :
  Parse tokenString (getSecretForToken serv) = Ok token ->
  Valid token = true
  /\ exists claims issuer secret,
       TokenClaims token = MapClaims claims
       /\ claims !! "iss" = Some (VString issuer)
       /\ JwtSecretsByIssuer serv !! issuer = Some secret.
Proof.
  intros Hparse.
  apply Parse_Ok in Hparse as (token0 & p & key & _ & Hk & Hc & _ & Hv).
  apply getSecretForToken_Ok in Hk as (_ & claims & issuer & Hc0 & Hiss & Hsec).
  split; [done |]. exists claims, issuer, key. by rewrite Hc.
Qed.

(** *** The claim-processing step *)

Lemma processJwt_issuer_key (s : State) :
  is_Some (clientMetadata s !! "issuer") ->
  processJwt serv s
  = Ret (Some (Errorf "Metadata field %#v cannot be set by client"
                 [VString "issuer"])) s.
Proof.
  intros [v Hv]. unfold processJwt, bind, getRequest.
  unfold clientMetadata in Hv. rewrite reservedKey_spec, Hv. reflexivity.
Qed.

Lemma processJwt_no_token (s : State) :
  clientMetadata s !! "issuer" = None ->
  default EmptyString (clientMetadata s !! "extjwt") = EmptyString ->
  processJwt serv s = Ret None s.
Proof.
  intros Hiss Htok. unfold processJwt, bind, getRequest.
  unfold clientMetadata in Hiss, Htok. rewrite reservedKey_spec, Hiss, Htok.
  reflexivity.
Qed.

Lemma processJwt_parse_fail (s : State) (tokenString : string) (err : error) :
  clientMetadata s !! "issuer" = None ->
  clientMetadata s !! "extjwt" = Some tokenString ->
  tokenString <> EmptyString ->
  Parse tokenString (getSecretForToken serv) = Fail err ->
  processJwt serv s = Ret (Some err) s.
Proof.
  intros Hiss Htok Hne Hparse. unfold processJwt, bind, getRequest.
  unfold clientMetadata in Hiss, Htok. rewrite reservedKey_spec, Hiss, Htok.
  simpl. rewrite decide_False by done. rewrite Hparse. reflexivity.
Qed.

(** The step with a token that [Parse] accepts: the header is rewritten
    when the [account] claim is a string, and left alone otherwise. *)
Lemma processJwt_parse_ok (s : State) (tokenString : string) (token : Token) :
  clientMetadata s !! "issuer" = None ->
  clientMetadata s !! "extjwt" = Some tokenString ->
  tokenString <> EmptyString ->
  Parse tokenString (getSecretForToken serv) = Ok token ->
  exists claims issuer,
    TokenClaims token = MapClaims claims
    /\ claims !! "iss" = Some (VString issuer)
    /\ processJwt serv s
       = match claims !! "account" with
         | Some (VString account) =>
             let metadata :=
               <["account" := account]> (<["issuer" := issuer]> (clientMetadata s)) in
             bind (setHeader "Upload-Metadata" (serializeMeta metadata))
               (fun _ => bind (Printf "metadata updated: account=%v issuer=%v\n"
                                 [AValue (VString account); AValue (VString issuer)])
                           (fun _ => ret None)) s
         | _ => Ret None s
         end.
Proof.
  intros Hiss Htok Hne Hparse.
  destruct (Parse_Ok_issuer _ _ Hparse) as (Hv & claims & issuer & _ & Hc & Hi & _).
  exists claims, issuer. split; [done |]. split; [done |].
  unfold processJwt, bind, getRequest.
  unfold clientMetadata in *. rewrite reservedKey_spec, Hiss, Htok.
  simpl. rewrite decide_False by done. rewrite Hparse, Hc, Hv, Hi. simpl.
  destruct (claims !! "account") as [[| | | account | |] |]; reflexivity.
Qed.

(** The step never panics: the unchecked assertion on [iss] is reached
    only after the key function has checked the same claim. *)
Lemma processJwt_total (s : State) :
  exists r s', processJwt serv s = Ret r s'.
Proof.
  destruct (clientMetadata s !! "issuer") as [v |] eqn:Hiss.
  { rewrite processJwt_issuer_key by eauto. eauto. }
  destruct (clientMetadata s !! "extjwt") as [tokenString |] eqn:Htok.
  2: { rewrite processJwt_no_token; [eauto | done | by rewrite Htok]. }
  destruct (decide (tokenString = EmptyString)) as [-> | Hne].
  { rewrite processJwt_no_token; [eauto | done | by rewrite Htok]. }
  destruct (Parse tokenString (getSecretForToken serv)) as [token | err] eqn:Hp.
  - destruct (processJwt_parse_ok s _ _ Hiss Htok Hne Hp)
      as (claims & issuer & _ & _ & ->).
    destruct (claims !! "account") as [[| | | account | |] |]; simpl; eauto.
  - rewrite (processJwt_parse_fail s _ _ Hiss Htok Hne Hp). eauto.
Qed.

(** *** The dispatch of [postFile] on the result of the step *)

Lemma postFile_step (s s1 : State) :
  addRemoteIPToMetadata serv s = Ret None s1 ->
  postFile serv s
  = bind (processJwt serv)
      (fun err =>
         match err with
         | Some err =>
             if isFatalJwtError err then
               match err with
               | ValidationError (Some ErrSignatureInvalid) errs =>
                   let jwtValidationErr :=
                     ValidationError (Some ErrSignatureInvalid) errs in
                   bind (ctxError jwtValidationErr) (fun _ =>
                   bind (SetType ErrorTypePublic) (fun _ =>
                   AbortWithStatusJSON StatusUnauthorized
                     (Sprintf "Failed to process EXTJWT: %s. Configured secret may be incorrect."
                        [AError jwtValidationErr])))
               | _ =>
                   bind (AbortWithError StatusBadRequest err)
                     (fun _ => SetType ErrorTypePublic)
               end
             else
               bind (logMsg WarnLevel [Err err] "Failed to process EXTJWT")
                 (fun _ => PostFile)
         | None => PostFile
         end) s1.
Proof.
  intros H1. unfold postFile. unfold bind at 1. rewrite H1. reflexivity.
Qed.

Lemma postFile_bad_request (s s1 s2 : State) (err : error) :
  addRemoteIPToMetadata serv s = Ret None s1 ->
  processJwt serv s1 = Ret (Some err) s2 ->
  isFatalJwtError err = true ->
  (forall errs, err <> ValidationError (Some ErrSignatureInvalid) errs) ->
  postFile serv s = Ret tt (abortedWith StatusBadRequest err ErrorTypePublic s2).
Proof.
  intros H1 H2 Hfatal Hsig. rewrite (postFile_step s s1 H1).
  unfold bind at 1. rewrite H2, Hfatal.
  assert (Habort : bind (AbortWithError StatusBadRequest err)
                     (fun _ => SetType ErrorTypePublic) s2
                   = Ret tt (abortedWith StatusBadRequest err ErrorTypePublic s2)).
  { unfold bind, AbortWithError, SetType, abortedWith. simpl.
    by rewrite setLastType_snoc. }
  destruct err as [| | | [[]|] errs | | |]; try exact Habort.
  exfalso. by eapply Hsig.
Qed.

(** *** The claims about the resolver *)

(** C3: with a forwarded-address header and a direct peer inside the
    trusted ranges, the resolver returns the address parsed from the
    first comma-separated field of the header, white space trimmed; when
    that field is not an address the resolver fails with
    [ErrInvalidXForwardedFor] and [postFile] rejects the request with
    status 406. *)
Theorem resolver_trusted_forwarded (s : State) (host port : string) :
  let forwardedFor := Header_Get (Header (st_request s)) "X-Forwarded-For" in
  let client := GoStrings.TrimSpace (hd EmptyString (GoStrings.Split forwardedFor ",")) in
  SplitHostPort (RemoteAddr (st_request s)) = inl (host, port) ->
  forwardedFor <> EmptyString ->
  remoteIPisTrusted serv (ParseIP host) = true ->
  match ParseIP client with
  | Some ip => getDirectOrForwardedRemoteIP serv s = Ret (IP_String ip, None) s
  | None =>
      getDirectOrForwardedRemoteIP serv s
      = Ret (EmptyString, Some ErrInvalidXForwardedFor)
          (logged ErrorLevel
             [Err ErrInvalidXForwardedFor; Str "client" client; Str "remoteIP" host]
             "Couldn't use trusted X-Forwarded-For header" s)
      /\ exists s', postFile serv s = Ret tt s' /\ rejected StatusNotAcceptable s s'
  end.
Proof.
  intros forwardedFor client Hsplit Hfwd Htrust.
  assert (Hres : getDirectOrForwardedRemoteIP serv s
                 = match ParseIP client with
                   | Some ip => Ret (IP_String ip, None) s
                   | None =>
                       Ret (EmptyString, Some ErrInvalidXForwardedFor)
                         (logged ErrorLevel
                            [Err ErrInvalidXForwardedFor; Str "client" client;
                             Str "remoteIP" host]
                            "Couldn't use trusted X-Forwarded-For header" s)
                   end).
  { unfold getDirectOrForwardedRemoteIP, bind, getRequest.
    rewrite Hsplit. fold forwardedFor. rewrite decide_True by done.
    rewrite Htrust. fold client. by destruct (ParseIP client). }
  destruct (ParseIP client) as [ip |] eqn:Hip; [exact Hres |].
  split; [exact Hres |].
  unfold postFile, bind at 1.
  destruct (clientMetadata s !! "RemoteIP") as [v |] eqn:Hkey.
  - rewrite addRemoteIP_client_key by eauto.
    eexists. split; [reflexivity |]. by repeat split.
  - unfold addRemoteIPToMetadata, bind, getRequest.
    unfold clientMetadata in Hkey. unfold uploadMetadataHeader.
    rewrite (clientSetsRemoteIP_absent _ Hkey), Hres.
    eexists. split; [reflexivity |]. by repeat split.
Qed.

Lemma resolver_untrusted (s : State) (host port : string) :
  let forwardedFor := Header_Get (Header (st_request s)) "X-Forwarded-For" in
  SplitHostPort (RemoteAddr (st_request s)) = inl (host, port) ->
  forwardedFor <> EmptyString ->
  remoteIPisTrusted serv (ParseIP host) = false ->
  getDirectOrForwardedRemoteIP serv s
  = Ret (host, None)
      (logged WarnLevel [Str "X-Forwarded-For" forwardedFor; Str "remoteIP" host]
         "Untrusted remote attempted to override stored IP" s).
Proof.
  intros forwardedFor Hsplit Hfwd Htrust.
  unfold getDirectOrForwardedRemoteIP, bind, getRequest.
  rewrite Hsplit. fold forwardedFor. rewrite decide_True by done.
  rewrite Htrust. reflexivity.
Qed.

Lemma withForwarded_request (value : string) (s : State) :
  RemoteAddr (st_request (withForwarded value s)) = RemoteAddr (st_request s)
  /\ Header_Get (Header (st_request (withForwarded value s))) "X-Forwarded-For" = value.
Proof.
  split; [reflexivity |].
  unfold withForwarded, exec, setHeader, setRequest, Header_Get, Header_Set. simpl.
  by rewrite lookup_insert_eq.
Qed.

(** C4: with a forwarded-address header and a direct peer outside the
    trusted ranges, the resolver returns the direct peer's host and logs
    one warning; the same host is returned whatever other text the header
    holds. *)
Theorem resolver_untrusted_forwarded (s : State) (host port : string) :
  let forwardedFor := Header_Get (Header (st_request s)) "X-Forwarded-For" in
  SplitHostPort (RemoteAddr (st_request s)) = inl (host, port) ->
  forwardedFor <> EmptyString ->
  remoteIPisTrusted serv (ParseIP host) = false ->
  getDirectOrForwardedRemoteIP serv s
  = Ret (host, None)
      (logged WarnLevel [Str "X-Forwarded-For" forwardedFor; Str "remoteIP" host]
         "Untrusted remote attempted to override stored IP" s)
  /\ forall other : string,
       other <> EmptyString ->
       returned (getDirectOrForwardedRemoteIP serv (withForwarded other s))
       = Some (host, None).
Proof.
  intros forwardedFor Hsplit Hfwd Htrust.
  split; [by apply (resolver_untrusted s host port) |].
  intros other Hother.
  destruct (withForwarded_request other s) as [Haddr Hget].
  rewrite (resolver_untrusted (withForwarded other s) host port); [reflexivity | | |].
  - by rewrite Haddr.
  - by rewrite Hget.
  - exact Htrust.
Qed.

(** *** The claims about bearer tokens *)

(** C5: a token that decodes with a signing method outside the HMAC
    family fails verification with the unexpected-signing-method error,
    wrapped by the library as an unverifiable token; the error is fatal
    and, once the address step has passed, [postFile] rejects the request
    with status 400 whatever else the token holds. *)
Theorem non_HMAC_token_rejected (s s1 : State) (tokenString : string)
    (token : Token) (parts : string * string * string) :
  addRemoteIPToMetadata serv s = Ret None s1 ->
  clientMetadata s1 !! "extjwt" = Some tokenString ->
  tokenString <> EmptyString ->
  ParseUnverified tokenString = Ok (token, parts) ->
  Method token <> SigningMethodHMAC ->
  let unexpected :=
    ValidationError
      (Some (Errorf "Unexpected signing method: %v"
               [default VNil (TokenHeader token !! "alg")]))
      ValidationErrorUnverifiable in
  Parse tokenString (getSecretForToken serv) = Fail unexpected
  /\ isFatalJwtError unexpected = true
  /\ (clientMetadata s1 !! "issuer" = None ->
      processJwt serv s1 = Ret (Some unexpected) s1)
  /\ exists err,
       postFile serv s = Ret tt (abortedWith StatusBadRequest err ErrorTypePublic s1).
Proof.
  intros H1 Htok Hne Hdec Hm unexpected.
  assert (Hparse : Parse tokenString (getSecretForToken serv) = Fail unexpected).
  { unfold Parse. rewrite Hdec. destruct parts as [[p0 p1] p2].
    by rewrite (getSecretForToken_not_HMAC _ Hm). }
  split; [exact Hparse |]. split; [reflexivity |].
  split; [intros Hiss; by apply (processJwt_parse_fail s1 tokenString) |].
  destruct (clientMetadata s1 !! "issuer") as [v |] eqn:Hiss.
  - exists (Errorf "Metadata field %#v cannot be set by client" [VString "issuer"]).
    eapply postFile_bad_request; [exact H1 | | reflexivity | discriminate].
    apply processJwt_issuer_key. eauto.
  - exists unexpected.
    eapply postFile_bad_request; [exact H1 | | reflexivity | discriminate].
    by apply (processJwt_parse_fail s1 tokenString).
Qed.

(** C6: a token of the HMAC family whose [iss] claim names an issuer that
    is absent from the registry makes the step return the unknown-issuer
    error without touching the state; the error is not fatal: [postFile]
    logs one warning and hands the request to the upload engine with the
    header the step found, so neither [issuer] nor [account] is injected. *)
Theorem unknown_issuer_proceeds (s s1 : State) (tokenString : string)
    (token : Token) (parts : string * string * string)
    (claims : gmap string iface) (issuer : string) :
  addRemoteIPToMetadata serv s = Ret None s1 ->
  clientMetadata s1 !! "issuer" = None ->
  clientMetadata s1 !! "extjwt" = Some tokenString ->
  tokenString <> EmptyString ->
  ParseUnverified tokenString = Ok (token, parts) ->
  Method token = SigningMethodHMAC ->
  TokenClaims token = MapClaims claims ->
  claims !! "iss" = Some (VString issuer) ->
  JwtSecretsByIssuer serv !! issuer = None ->
  let unknown :=
    ValidationError (Some (UnknownIssuerError issuer)) ValidationErrorUnverifiable in
  processJwt serv s1 = Ret (Some unknown) s1
  /\ isFatalJwtError unknown = false
  /\ exists s', postFile serv s = Ret tt s'
       /\ proceeded s1 s'
       /\ st_log s' = st_log s1 ++ [Entry WarnLevel [Err unknown] "Failed to process EXTJWT"].
Proof.
  intros H1 Hiss Htok Hne Hdec Hm Hc Hi Hreg unknown.
  assert (Hparse : Parse tokenString (getSecretForToken serv) = Fail unknown).
  { unfold Parse. rewrite Hdec. destruct parts as [[p0 p1] p2].
    by rewrite (getSecretForToken_unknown_issuer _ _ _ Hm Hc Hi Hreg). }
  assert (Hstep : processJwt serv s1 = Ret (Some unknown) s1)
    by by apply (processJwt_parse_fail s1 tokenString).
  split; [exact Hstep |]. split; [reflexivity |].
  rewrite (postFile_step s s1 H1). unfold bind at 1. rewrite Hstep.
  eexists. split; [reflexivity |]. by repeat split.
Qed.

(** C7 (as amended): a token of the HMAC family whose issuer is in the
    registry and whose signature check against that issuer's secret reports
    [jwt.ErrSignatureInvalid] is rejected with status 401 and a JSON body
    hinting that the configured secret may be incorrect; the validation
    error is attached to the context as a public error. *)
Theorem bad_signature_unauthorized (s s1 : State) (tokenString : string)
    (token : Token) (p0 p1 p2 : string)
    (claims : gmap string iface) (issuer secret : string) :
  addRemoteIPToMetadata serv s = Ret None s1 ->
  clientMetadata s1 !! "issuer" = None ->
  clientMetadata s1 !! "extjwt" = Some tokenString ->
  tokenString <> EmptyString ->
  ParseUnverified tokenString = Ok (token, (p0, p1, p2)) ->
  Method token = SigningMethodHMAC ->
  TokenClaims token = MapClaims claims ->
  claims !! "iss" = Some (VString issuer) ->
  JwtSecretsByIssuer serv !! issuer = Some secret ->
  Verify SigningMethodHMAC (p0 +:+ "." +:+ p1) p2 secret = Some ErrSignatureInvalid ->
  exists errs s',
    let invalid := ValidationError (Some ErrSignatureInvalid) errs in
    postFile serv s = Ret tt s'
    /\ rejected StatusUnauthorized s1 s'
    /\ st_json s'
       = Some (Sprintf "Failed to process EXTJWT: %s. Configured secret may be incorrect."
                 [AError invalid])
    /\ st_errors s' = st_errors s1 ++ [(invalid, ErrorTypePublic)].
Proof.
  intros H1 Hiss Htok Hne Hdec Hm Hc Hi Hreg Hsig.
  assert (Hparse : exists errs,
             Parse tokenString (getSecretForToken serv)
             = Fail (ValidationError (Some ErrSignatureInvalid) errs)).
  { unfold Parse. rewrite Hdec.
    rewrite (getSecretForToken_known_issuer _ _ _ _ Hm Hc Hi Hreg).
    rewrite Hm, Hsig. simpl.
    eexists. rewrite decide_False; [reflexivity |].
    by apply lor_flag_nonzero. }
  destruct Hparse as [errs Hparse]. exists errs.
  rewrite (postFile_step s s1 H1). unfold bind at 1.
  rewrite (processJwt_parse_fail s1 tokenString _ Hiss Htok Hne Hparse).
  eexists. split; [reflexivity |]. simpl.
  split; [by repeat split |]. split; [reflexivity |].
  by rewrite setLastType_snoc.
Qed.

(** C9: in the claim-processing step, a token that [Parse] accepts but
    whose [account] claim is absent or not a string makes the step return
    [nil] with the state, and so the metadata header, exactly as it found
    them: the issuer is not injected alone. *)
Theorem account_missing_no_injection (s : State) (tokenString : string)
    (token : Token) :
  clientMetadata s !! "issuer" = None ->
  clientMetadata s !! "extjwt" = Some tokenString ->
  tokenString <> EmptyString ->
  Parse tokenString (getSecretForToken serv) = Ok token ->
  (forall claims account,
     TokenClaims token = MapClaims claims ->
     claims !! "account" <> Some (VString account)) ->
  processJwt serv s = Ret None s.
Proof.
  intros Hiss Htok Hne Hparse Hacc.
  destruct (processJwt_parse_ok s _ _ Hiss Htok Hne Hparse)
    as (claims & issuer & Hc & _ & ->).
  specialize (Hacc claims).
  destruct (claims !! "account") as [[| | | account | |] |]; try reflexivity.
  exfalso. by eapply Hacc.
Qed.

(** Issuer and account go into the metadata together or not at all: the
    step either leaves the state as it is, or returns [nil] after setting
    the header to the encoding of the client's metadata with both fields
    inserted. *)
Lemma processJwt_together_or_not_at_all (s : State) :
  (exists r, processJwt serv s = Ret r s)
  \/ exists issuer account s',
       processJwt serv s = Ret None s'
       /\ Header (st_request s')
          = Header_Set (Header (st_request s)) "Upload-Metadata"
              (serializeMeta
                 (<["account" := account]> (<["issuer" := issuer]> (clientMetadata s)))).
Proof.
  destruct (clientMetadata s !! "issuer") as [v |] eqn:Hiss.
  { left. rewrite processJwt_issuer_key by eauto. eauto. }
  destruct (clientMetadata s !! "extjwt") as [tokenString |] eqn:Htok.
  2: { left. rewrite processJwt_no_token; [eauto | done | by rewrite Htok]. }
  destruct (decide (tokenString = EmptyString)) as [-> | Hne].
  { left. rewrite processJwt_no_token; [eauto | done | by rewrite Htok]. }
  destruct (Parse tokenString (getSecretForToken serv)) as [token | err] eqn:Hp.
  - destruct (processJwt_parse_ok s _ _ Hiss Htok Hne Hp)
      as (claims & issuer & _ & _ & ->).
    destruct (claims !! "account") as [[| | | account | |] |]; eauto.
    right. exists issuer, account. eexists. split; reflexivity.
  - left. rewrite (processJwt_parse_fail s _ _ Hiss Htok Hne Hp). eauto.
Qed.

End Properties.

(** What [postFile] does get right of the second reserved-field check: a
      client-supplied [issuer] key is rejected with status 400. *)
Lemma postFile_client_issuer_rejected
      {codec : MetadataCodec} {net : NetLib} {jwt : JwtLib}
      (serv : UploadServer) (s s1 : State) :
    addRemoteIPToMetadata serv s = Ret None s1 ->
    is_Some (clientMetadata s1 !! "issuer") ->
    postFile serv s
    = Ret tt (abortedWith StatusBadRequest
                (Errorf "Metadata field %#v cannot be set by client" [VString "issuer"])
                ErrorTypePublic s1).
  Proof.
    intros Hip Hkey.
    eapply postFile_bad_request; [exact Hip | | reflexivity | discriminate].
    by apply processJwt_issuer_key.
  Qed.

(** ** Properties of the recorder *)

Section RecorderProperties.
Context {store : DbLib}.

Lemma ipRecorder_app (before after : list TusEvent) :
  ipRecorder (before ++ after) = ipRecorder before ++ ipRecorder after.
Proof.
  induction before as [| event rest IH]; simpl; [reflexivity |].
  destruct (decide (Type_ event = HookPostCreate)); simpl; by rewrite IH.
Qed.

(** Every goroutine the recorder starts belongs to a created upload. *)
Lemma ipRecorder_sources (channel : list TusEvent) (g : RecState -> RecState) :
  g ∈ ipRecorder channel ->
  exists created,
    created ∈ channel /\ Type_ created = HookPostCreate /\ g = recordUploaderIP created.
Proof.
  induction channel as [| event rest IH]; simpl; [intros Hin; inversion Hin |].
  destruct (decide (Type_ event = HookPostCreate)) as [Hc | Hc].
  - intros Hin. apply elem_of_cons in Hin as [-> | Hin].
    + exists event. split; [left | done].
    + destruct (IH Hin) as (created & Hin' & Hrest). exists created.
      split; [by right | done].
  - intros Hin. destruct (IH Hin) as (created & Hin' & Hrest). exists created.
    split; [by right | done].
Qed.

(** C8: the recorder starts a write only for an event of type
    [HookPostCreate].  An event of type [HookPostReceive] (progress),
    [HookPostFinish] (completed) or [HookPostTerminate] (terminated)
    starts no goroutine: alone it leaves the store and the log as they
    are, anywhere in the stream it changes nothing of what the recorder
    does, and every write there is comes from a created upload. *)
Theorem ipRecorder_only_on_created (before after : list TusEvent) (event : TusEvent) :
  Type_ event ∈ [HookPostReceive; HookPostFinish; HookPostTerminate] ->
  ipRecorder [event] = []
  /\ (forall s, runAll (ipRecorder [event]) s = s)
  /\ ipRecorder (before ++ event :: after) = ipRecorder (before ++ after)
  /\ forall g, g ∈ ipRecorder (before ++ event :: after) ->
       exists created,
         created ∈ before ++ after /\ Type_ created = HookPostCreate
         /\ g = recordUploaderIP created.
Proof.
  intros Hty.
  assert (Hnc : Type_ event <> HookPostCreate).
  { intros Heq. rewrite Heq in Hty.
    repeat (apply elem_of_cons in Hty as [Hty | Hty]; [discriminate |]).
    inversion Hty. }
  assert (Hone : ipRecorder [event] = []).
  { simpl. by rewrite decide_False. }
  assert (Hskip : ipRecorder (before ++ event :: after) = ipRecorder (before ++ after)).
  { rewrite !ipRecorder_app. change (event :: after) with ([event] ++ after).
    by rewrite ipRecorder_app, Hone. }
  split; [exact Hone |]. split; [intros s; by rewrite Hone |].
  split; [exact Hskip |].
  intros g Hin. rewrite Hskip in Hin. by apply ipRecorder_sources.
Qed.

(** The goroutine of a created upload runs the statement once, with the
    address found under [RemoteIP] (the empty string when the key is
    missing) and the upload's ID. *)
Lemma recordUploaderIP_db (event : TusEvent) (s : RecState) :
  rec_db (recordUploaderIP event s)
  = fst (UpdateRow (rec_db s) updateUploaderIP
           [default EmptyString (MetaData (Info event) !! "RemoteIP"); ID (Info event)]).
Proof.
  unfold recordUploaderIP. by destruct (UpdateRow _ _ _) as [db' [err |]].
Qed.

Lemma ipRecorder_created (event : TusEvent) :
  Type_ event = HookPostCreate -> ipRecorder [event] = [recordUploaderIP event].
Proof. intros Hty. simpl. by rewrite decide_True. Qed.

(** C10: for a created upload whose metadata has no [RemoteIP] key the
    recorder still starts the write, and the statement is run with the
    empty string as the address and the upload's ID as the key. *)
Theorem created_without_RemoteIP_writes_empty (event : TusEvent) (s : RecState) :
  Type_ event = HookPostCreate ->
  MetaData (Info event) !! "RemoteIP" = None ->
  ipRecorder [event] = [recordUploaderIP event]
  /\ rec_db (runAll (ipRecorder [event]) s)
     = fst (UpdateRow (rec_db s) updateUploaderIP [EmptyString; ID (Info event)]).
Proof.
  intros Hty Hkey. rewrite (ipRecorder_created event Hty).
  split; [reflexivity |]. unfold runAll. simpl.
  by rewrite recordUploaderIP_db, Hkey.
Qed.

End RecorderProperties.

(** ** The CORS middleware *)

Lemma originSet_fold (allowedOrigins : list string) (acc : gmap string unit)
    (origin : string) :
  is_Some (foldl (fun set o => <[o := tt]> set) acc allowedOrigins !! origin)
  <-> origin ∈ allowedOrigins \/ is_Some (acc !! origin).
Proof.
  revert acc. induction allowedOrigins as [| o rest IH]; intros acc; simpl.
  - split; [by right | intros [Hin | Hacc]; [inversion Hin | done]].
  - rewrite IH, elem_of_cons. destruct (decide (o = origin)) as [-> | Hne].
    + rewrite lookup_insert_eq. split; [intros _; by left; left | eauto].
    + rewrite lookup_insert_ne by done. split.
      * intros [Hin | Hacc]; [left; by right | by right].
      * intros [[Heq | Hin] | Hacc]; [congruence | by left | by right].
Qed.

(** The set built from the slice holds exactly the configured origins. *)
Lemma originSet_lookup (allowedOrigins : list string) (origin : string) :
  is_Some (originSet allowedOrigins !! origin) <-> origin ∈ allowedOrigins.
Proof.
  unfold originSet. rewrite originSet_fold. split; [| by left].
  intros [Hin | [u Hu]]; [done | by rewrite lookup_empty in Hu].
Qed.

(** X1: for a request whose [Origin] is one of the configured origins, the
    response carries [Access-Control-Allow-Origin] with that origin as its
    only value, whatever the header held before, and [Origin] is appended
    to the values of [Vary]. *)
Theorem cors_allowed_origin (allowedOrigins : list string) (req : Request)
    (respHeader : gmap string (list string)) :
  Header_Get (Header req) "Origin" ∈ allowedOrigins ->
  customizedCors allowedOrigins req respHeader !! "Access-Control-Allow-Origin"
  = Some [Header_Get (Header req) "Origin"]
  /\ customizedCors allowedOrigins req respHeader !! "Vary"
     = Some (default [] (respHeader !! "Vary") ++ ["Origin"]).
Proof.
  intros Hin. apply originSet_lookup in Hin as [u Hu].
  unfold customizedCors, Header_Add, Header_Set. rewrite Hu.
  rewrite lookup_insert_ne by done. rewrite !lookup_insert_eq.
  split; [reflexivity |]. by rewrite lookup_insert_ne.
Qed.

(** X2: for a request whose [Origin] is not literally one of the configured
    origins (a configured ["*"] allows nothing else, and a request without
    the header has the empty origin), the response carries no
    [Access-Control-Allow-Origin], even when one was set before, and
    [Origin] is still appended to [Vary]. *)
Theorem cors_other_origin (allowedOrigins : list string) (req : Request)
    (respHeader : gmap string (list string)) :
  Header_Get (Header req) "Origin" ∉ allowedOrigins ->
  customizedCors allowedOrigins req respHeader !! "Access-Control-Allow-Origin" = None
  /\ customizedCors allowedOrigins req respHeader !! "Vary"
     = Some (default [] (respHeader !! "Vary") ++ ["Origin"]).
Proof.
  intros Hnin.
  assert (Hnone : originSet allowedOrigins !! Header_Get (Header req) "Origin" = None).
  { destruct (originSet allowedOrigins !! _) eqn:E; [| reflexivity].
    exfalso. apply Hnin, originSet_lookup. eauto. }
  unfold customizedCors, Header_Add, Header_Del. rewrite Hnone.
  rewrite lookup_insert_ne by done. rewrite lookup_delete_eq, lookup_insert_eq.
  split; [reflexivity |]. by rewrite lookup_delete_ne.
Qed.

(** X3: the middleware changes no response header other than
    [Access-Control-Allow-Origin] and [Vary]. *)
Theorem cors_other_headers_kept (allowedOrigins : list string) (req : Request)
    (respHeader : gmap string (list string)) (key : string) :
  key <> "Access-Control-Allow-Origin" ->
  key <> "Vary" ->
  customizedCors allowedOrigins req respHeader !! key = respHeader !! key.
Proof.
  intros Hacao Hvary. unfold customizedCors, Header_Add, Header_Set, Header_Del.
  rewrite lookup_insert_ne by done.
  destruct (originSet allowedOrigins !! _).
  - by rewrite lookup_insert_ne.
  - by rewrite lookup_delete_ne.
Qed.

(** ** More on the address resolver *)

Lemma hd_Split_cons (c sep : ascii) (s : string) :
  c <> sep ->
  hd EmptyString (GoStrings.Split (String c s) sep)
  = String c (hd EmptyString (GoStrings.Split s sep)).
Proof.
  intros Hne. simpl. rewrite decide_False by done.
  destruct (GoStrings.Split s sep) eqn:E; [| reflexivity].
  by apply Split_nonempty in E.
Qed.

(** The first field of a list does not depend on what follows its first
    separator. *)
Lemma hd_Split_app (first rest : string) (sep : ascii) :
  hd EmptyString (GoStrings.Split (first +:+ String sep rest) sep)
  = hd EmptyString (GoStrings.Split first sep).
Proof.
  induction first as [| c first IH].
  - simpl. by rewrite decide_True.
  - destruct (decide (c = sep)) as [-> | Hne].
    + simpl. by rewrite !decide_True.
    + change (String c first +:+ String sep rest)
        with (String c (first +:+ String sep rest)).
      by rewrite !hd_Split_cons, IH.
Qed.

Lemma appendLog_nil (s : State) : appendLog [] s = s.
Proof. destruct s. unfold appendLog. simpl. by rewrite app_nil_r. Qed.

Lemma logged_appendLog (l : Level) (fields : list Field) (msg : string) (s : State) :
  logged l fields msg s = appendLog [Entry l fields msg] s.
Proof. reflexivity. Qed.

Section ResolverProperties.
Context {codec : MetadataCodec} {net : NetLib} {jwt : JwtLib}.
Variable serv : UploadServer.

Lemma rangesContain_iff (ranges : list IPNet) (remoteIP : option IP) :
  rangesContain ranges remoteIP = true
  <-> exists trustedNet, trustedNet ∈ ranges /\ IPNet_Contains trustedNet remoteIP = true.
Proof.
  induction ranges as [| n rest IH]; simpl.
  - split; [discriminate | intros (n & Hin & _); inversion Hin].
  - destruct (IPNet_Contains n remoteIP) eqn:E.
    + split; [intros _; exists n; split; [left | done] | done].
    + rewrite IH. split.
      * intros (m & Hin & Hm). exists m. split; [by right | done].
      * intros (m & Hin & Hm). apply elem_of_cons in Hin as [-> | Hin];
          [congruence | eauto].
Qed.

(** X4: a peer is trusted exactly when one of the configured ranges contains
    its address; with no range configured nobody is. *)
Theorem remoteIPisTrusted_iff (remoteIP : option IP) :
  remoteIPisTrusted serv remoteIP = true
  <-> exists trustedNet,
        trustedNet ∈ TrustedReverseProxyRanges serv
        /\ IPNet_Contains trustedNet remoteIP = true.
Proof. apply rangesContain_iff. Qed.

(** The four ways out of the resolver, with the state each leaves. *)
Lemma resolver_outcome (s : State) :
  let req := st_request s in
  let forwardedFor := Header_Get (Header req) "X-Forwarded-For" in
  let client := GoStrings.TrimSpace (hd EmptyString (GoStrings.Split forwardedFor ",")) in
  match SplitHostPort (RemoteAddr req) with
  | inr (e, a) =>
      getDirectOrForwardedRemoteIP serv s
      = Ret (EmptyString, Some (AddrError e a))
          (appendLog [Entry ErrorLevel [Err (AddrError e a)]
                        "Could not split address into host and port"] s)
  | inl (host, _) =>
      if decide (forwardedFor = EmptyString)
      then getDirectOrForwardedRemoteIP serv s = Ret (host, None) s
      else if remoteIPisTrusted serv (ParseIP host)
      then match ParseIP client with
           | Some ip => getDirectOrForwardedRemoteIP serv s = Ret (IP_String ip, None) s
           | None =>
               getDirectOrForwardedRemoteIP serv s
               = Ret (EmptyString, Some ErrInvalidXForwardedFor)
                   (appendLog
                      [Entry ErrorLevel
                         [Err ErrInvalidXForwardedFor; Str "client" client;
                          Str "remoteIP" host]
                         "Couldn't use trusted X-Forwarded-For header"] s)
           end
      else getDirectOrForwardedRemoteIP serv s
           = Ret (host, None)
               (appendLog
                  [Entry WarnLevel [Str "X-Forwarded-For" forwardedFor; Str "remoteIP" host]
                     "Untrusted remote attempted to override stored IP"] s)
  end.
Proof.
  intros req forwardedFor client.
  unfold getDirectOrForwardedRemoteIP, bind, getRequest. fold req.
  destruct (SplitHostPort (RemoteAddr req)) as [[host port] | [e a]]; [| reflexivity].
  fold forwardedFor.
  destruct (decide (forwardedFor = EmptyString)) as [Hempty | Hfwd].
  - by rewrite decide_False by (intros Hne; by apply Hne).
  - rewrite decide_True by done.
    destruct (remoteIPisTrusted serv (ParseIP host)); [| reflexivity].
    fold client. by destruct (ParseIP client).
Qed.

Lemma resolver_log_outcome (s : State) :
  exists r entries,
    getDirectOrForwardedRemoteIP serv s = Ret r (appendLog entries s)
    /\ match snd r with
       | None => entries = [] \/ exists fields msg, entries = [Entry WarnLevel fields msg]
       | Some _ =>
           fst r = EmptyString
           /\ exists fields msg, entries = [Entry ErrorLevel fields msg]
       end.
Proof.
  pose proof (resolver_outcome s) as Hout. simpl in Hout.
  destruct (SplitHostPort _) as [[host port] | [e a]].
  - destruct (decide (_ = EmptyString)).
    { exists (host, None), []. rewrite appendLog_nil. split; [done | by left]. }
    destruct (remoteIPisTrusted _ _).
    + destruct (ParseIP (GoStrings.TrimSpace _)) as [ip |].
      * exists (IP_String ip, None), []. rewrite appendLog_nil. split; [done | by left].
      * eexists (_, _), _. split; [exact Hout |]. simpl. eauto.
    + eexists (_, _), _. split; [exact Hout |]. simpl. eauto.
  - eexists (_, _), _. split; [exact Hout |]. simpl. eauto.
Qed.

(** X5: the resolver never panics and changes nothing but the log: a
    successful result comes with no entry or with one warning, a failure
    comes with the empty address and one entry of level error. *)
Theorem resolver_only_logs (s : State) :
  exists r entries,
    getDirectOrForwardedRemoteIP serv s = Ret r (appendLog entries s)
    /\ match snd r with
       | None => entries = [] \/ exists fields msg, entries = [Entry WarnLevel fields msg]
       | Some _ =>
           fst r = EmptyString
           /\ exists fields msg, entries = [Entry ErrorLevel fields msg]
       end.
Proof. exact (resolver_log_outcome s). Qed.

(** X7: with no trusted range configured, a forwarded-address header is
    never honoured: the resolver returns the direct peer's host for every
    header, and cannot fail on the header's content. *)
Theorem resolver_without_trusted_ranges (s : State) (host port : string) :
  TrustedReverseProxyRanges serv = [] ->
  SplitHostPort (RemoteAddr (st_request s)) = inl (host, port) ->
  returned (getDirectOrForwardedRemoteIP serv s) = Some (host, None).
Proof.
  intros Hranges Hsplit. pose proof (resolver_outcome s) as Hout. simpl in Hout.
  rewrite Hsplit in Hout. unfold remoteIPisTrusted in Hout.
  rewrite Hranges in Hout. simpl in Hout.
  destruct (decide (_ = EmptyString)); by rewrite Hout.
Qed.

Lemma withForwarded_nonempty (first rest : string) :
  first +:+ String "," rest <> EmptyString.
Proof. by destruct first. Qed.

(** X8: only the first hop of a forwarding chain counts: two requests that
    differ only in what follows the first comma of the header resolve to
    the same address or fail alike, for every peer and every
    configuration. *)
Theorem resolver_first_hop_only (s : State) (first rest1 rest2 : string) :
  returned (getDirectOrForwardedRemoteIP serv
              (withForwarded (first +:+ String "," rest1) s))
  = returned (getDirectOrForwardedRemoteIP serv
                (withForwarded (first +:+ String "," rest2) s)).
Proof.
  pose proof (resolver_outcome (withForwarded (first +:+ String "," rest1) s)) as H1.
  pose proof (resolver_outcome (withForwarded (first +:+ String "," rest2) s)) as H2.
  cbv zeta in H1, H2.
  destruct (withForwarded_request (first +:+ String "," rest1) s) as [Ha1 Hg1].
  destruct (withForwarded_request (first +:+ String "," rest2) s) as [Ha2 Hg2].
  rewrite Ha1, Hg1 in H1. rewrite Ha2, Hg2 in H2.
  rewrite hd_Split_app in H1, H2.
  destruct (SplitHostPort _) as [[host port] | [e a]].
  - rewrite decide_False in H1 by apply withForwarded_nonempty.
    rewrite decide_False in H2 by apply withForwarded_nonempty.
    destruct (remoteIPisTrusted _ _).
    + destruct (ParseIP (GoStrings.TrimSpace _)); by rewrite H1, H2.
    + by rewrite H1, H2.
  - by rewrite H1, H2.
Qed.

(** *** The address step *)

Lemma addRemoteIP_outcome (s : State) :
  match clientMetadata s !! "RemoteIP" with
  | Some _ =>
      addRemoteIPToMetadata serv s
      = Ret (Some (Errorf "Metadata field RemoteIP cannot be set by client" [])) s
  | None =>
      exists r s0,
        getDirectOrForwardedRemoteIP serv s = Ret r s0
        /\ addRemoteIPToMetadata serv s
           = match snd r with
             | Some err => Ret (Some err) s0
             | None =>
                 Ret None (withMetadata (<["RemoteIP" := fst r]> (clientMetadata s)) s0)
             end
  end.
Proof.
  destruct (clientMetadata s !! "RemoteIP") as [v |] eqn:Hkey.
  - apply addRemoteIP_client_key. eauto.
  - destruct (resolver_log_outcome s) as (r & entries & Hres & _).
    exists r, (appendLog entries s). split; [exact Hres |].
    unfold addRemoteIPToMetadata, bind, getRequest.
    unfold clientMetadata in Hkey. unfold uploadMetadataHeader.
    rewrite (clientSetsRemoteIP_absent _ Hkey), Hres.
    by destruct r as [ip [err |]].
Qed.

Lemma addRemoteIP_success_inv (s s1 : State) :
  addRemoteIPToMetadata serv s = Ret None s1 ->
  clientMetadata s !! "RemoteIP" = None
  /\ exists ip s0,
       getDirectOrForwardedRemoteIP serv s = Ret (ip, None) s0
       /\ s1 = withMetadata (<["RemoteIP" := ip]> (clientMetadata s)) s0
       /\ Header_Get (Header (st_request s1)) "Upload-Metadata"
          = serializeMeta (<["RemoteIP" := ip]> (clientMetadata s)).
Proof.
  intros Hstep. pose proof (addRemoteIP_outcome s) as Hout.
  destruct (clientMetadata s !! "RemoteIP") as [v |] eqn:Hkey.
  { rewrite Hout in Hstep. discriminate. }
  split; [reflexivity |].
  destruct Hout as ([ip [err |]] & s0 & Hres & Hadd); simpl in Hadd;
    rewrite Hadd in Hstep; [discriminate |].
  injection Hstep as <-. exists ip, s0. split; [exact Hres |]. split; [reflexivity |].
  unfold withMetadata, exec, setHeader, setRequest, Header_Get, Header_Set. simpl.
  by rewrite lookup_insert_eq.
Qed.

(** X9: whenever the address step succeeds, the client had supplied no
    [RemoteIP], the resolver succeeded, and the header the step leaves is
    the encoding of the client's metadata with [RemoteIP] set to the
    resolver's address. *)
Theorem addRemoteIP_success (s s1 : State) :
  addRemoteIPToMetadata serv s = Ret None s1 ->
  clientMetadata s !! "RemoteIP" = None
  /\ exists ip s0,
       getDirectOrForwardedRemoteIP serv s = Ret (ip, None) s0
       /\ s1 = withMetadata (<["RemoteIP" := ip]> (clientMetadata s)) s0
       /\ Header_Get (Header (st_request s1)) "Upload-Metadata"
          = serializeMeta (<["RemoteIP" := ip]> (clientMetadata s)).
Proof. exact (addRemoteIP_success_inv s s1). Qed.

(** X6: behind a trusted proxy whose header starts with an address, the
    address written under [RemoteIP] is that of the original client, not
    the proxy's. *)
Theorem trusted_proxy_injects_client_address (s : State) (host port : string) (ip : IP) :
  let forwardedFor := Header_Get (Header (st_request s)) "X-Forwarded-For" in
  clientMetadata s !! "RemoteIP" = None ->
  SplitHostPort (RemoteAddr (st_request s)) = inl (host, port) ->
  forwardedFor <> EmptyString ->
  remoteIPisTrusted serv (ParseIP host) = true ->
  ParseIP (GoStrings.TrimSpace (hd EmptyString (GoStrings.Split forwardedFor ",")))
  = Some ip ->
  addRemoteIPToMetadata serv s
  = Ret None (withMetadata (<["RemoteIP" := IP_String ip]> (clientMetadata s)) s).
Proof.
  intros forwardedFor Hkey Hsplit Hfwd Htrust Hip.
  pose proof (resolver_outcome s) as Hres. cbv zeta in Hres.
  rewrite Hsplit in Hres. fold forwardedFor in Hres.
  rewrite decide_False, Htrust, Hip in Hres by done.
  pose proof (addRemoteIP_outcome s) as Hout. rewrite Hkey in Hout.
  destruct Hout as (r & s0 & Hres' & Hadd). rewrite Hres in Hres'.
  by injection Hres' as <- <-.
Qed.

(** X21: from a peer outside the trusted ranges, the address written under
    [RemoteIP] is the peer's own, whatever the forwarded-address header
    claims; the attempt is logged as a warning. *)
Theorem untrusted_peer_injects_direct_host (s : State) (host port : string) :
  let forwardedFor := Header_Get (Header (st_request s)) "X-Forwarded-For" in
  clientMetadata s !! "RemoteIP" = None ->
  SplitHostPort (RemoteAddr (st_request s)) = inl (host, port) ->
  forwardedFor <> EmptyString ->
  remoteIPisTrusted serv (ParseIP host) = false ->
  addRemoteIPToMetadata serv s
  = Ret None
      (withMetadata (<["RemoteIP" := host]> (clientMetadata s))
         (logged WarnLevel [Str "X-Forwarded-For" forwardedFor; Str "remoteIP" host]
            "Untrusted remote attempted to override stored IP" s)).
Proof.
  intros forwardedFor Hkey Hsplit Hfwd Htrust.
  pose proof (addRemoteIP_outcome s) as Hout. rewrite Hkey in Hout.
  destruct Hout as (r & s0 & Hres' & Hadd).
  rewrite (resolver_untrusted serv s host port Hsplit Hfwd Htrust) in Hres'.
  by injection Hres' as <- <-.
Qed.

(** X10: when the codec decodes what it encoded for the augmented
    metadata, the metadata after a successful address step is the client's
    with [RemoteIP] set to the resolved address: every other key keeps its
    value. *)
Theorem addRemoteIP_keeps_client_keys (s s0 s1 : State) (ip : string) :
  addRemoteIPToMetadata serv s = Ret None s1 ->
  getDirectOrForwardedRemoteIP serv s = Ret (ip, None) s0 ->
  parseMeta (serializeMeta (<["RemoteIP" := ip]> (clientMetadata s)))
  = <["RemoteIP" := ip]> (clientMetadata s) ->
  clientMetadata s1 !! "RemoteIP" = Some ip
  /\ forall key, key <> "RemoteIP" -> clientMetadata s1 !! key = clientMetadata s !! key.
Proof.
  intros Hstep Hres Hround.
  destruct (addRemoteIP_success_inv s s1 Hstep) as (_ & ip' & s0' & Hres' & _ & Hhdr).
  rewrite Hres in Hres'. injection Hres' as <- <-.
  unfold clientMetadata at 1 2. rewrite Hhdr, Hround.
  split; [apply lookup_insert_eq |].
  intros key Hne. by rewrite lookup_insert_ne.
Qed.

(** X11: when the peer address cannot be split into host and port (and the
    client supplied no [RemoteIP]), the request is answered with status
    500, the address error is attached as a private error and logged once,
    and neither the request nor the engine is touched. *)
Theorem address_error_internal (s : State) (e a : string) :
  clientMetadata s !! "RemoteIP" = None ->
  SplitHostPort (RemoteAddr (st_request s)) = inr (e, a) ->
  postFile serv s
  = Ret tt
      (abortedWith StatusInternalServerError (AddrError e a) ErrorTypePrivate
         (appendLog [Entry ErrorLevel [Err (AddrError e a)]
                       "Could not split address into host and port"] s)).
Proof.
  intros Hkey Hsplit.
  pose proof (resolver_outcome s) as Hres. simpl in Hres. rewrite Hsplit in Hres.
  pose proof (addRemoteIP_outcome s) as Hout. rewrite Hkey in Hout.
  destruct Hout as (r & s0 & Hres' & Hadd). rewrite Hres in Hres'.
  injection Hres' as <- <-. simpl in Hadd.
  unfold postFile, bind at 1. rewrite Hadd.
  unfold bind, AbortWithError, SetType, abortedWith. simpl.
  by rewrite setLastType_snoc.
Qed.

End ResolverProperties.

(** ** More on the claim-processing step and on [postFile] *)

Lemma onlyMetadataChanged_refl (s : State) : onlyMetadataChanged s s.
Proof. by repeat split. Qed.

Lemma onlyMetadataChanged_trans (s1 s2 s3 : State) :
  onlyMetadataChanged s1 s2 -> onlyMetadataChanged s2 s3 -> onlyMetadataChanged s1 s3.
Proof.
  intros (A1 & A2 & A3 & A4 & A5 & A6 & A7) (B1 & B2 & B3 & B4 & B5 & B6 & B7).
  repeat split; try congruence.
  intros key Hne. by rewrite B7, A7.
Qed.

Lemma onlyMetadataChanged_appendLog (entries : list LogEntry) (s : State) :
  onlyMetadataChanged s (appendLog entries s).
Proof. by repeat split. Qed.

Lemma onlyMetadataChanged_withMetadata `{!MetadataCodec}
    (metadata : gmap string string) (s : State) :
  onlyMetadataChanged s (withMetadata metadata s).
Proof.
  repeat split. intros key Hne.
  unfold withMetadata, exec, setHeader, setRequest, Header_Set. simpl.
  by rewrite lookup_insert_ne.
Qed.

Lemma onlyMetadataChanged_identified `{!MetadataCodec}
    (issuer account : string) (s : State) :
  onlyMetadataChanged s (identified issuer account s).
Proof.
  repeat split. intros key Hne.
  unfold identified, withMetadata, exec, setHeader, setRequest, Header_Set. simpl.
  by rewrite lookup_insert_ne.
Qed.

Lemma snoc_neq {A} (l : list A) (x : A) : l ++ [x] <> l.
Proof.
  intros Heq. apply (f_equal length) in Heq. rewrite length_app in Heq.
  simpl in Heq. lia.
Qed.

Section TokenProperties.
Context {codec : MetadataCodec} {net : NetLib} {jwt : JwtLib}.
Variable serv : UploadServer.

Lemma processJwt_outcome (s : State) :
  (exists r, processJwt serv s = Ret r s)
  \/ exists issuer account,
       is_Some (JwtSecretsByIssuer serv !! issuer)
       /\ clientMetadata s !! "issuer" = None
       /\ processJwt serv s = Ret None (identified issuer account s).
Proof.
  destruct (clientMetadata s !! "issuer") as [v |] eqn:Hiss.
  { left. rewrite processJwt_issuer_key by eauto. eauto. }
  destruct (clientMetadata s !! "extjwt") as [tokenString |] eqn:Htok.
  2: { left. rewrite processJwt_no_token; [eauto | done | by rewrite Htok]. }
  destruct (decide (tokenString = EmptyString)) as [-> | Hne].
  { left. rewrite processJwt_no_token; [eauto | done | by rewrite Htok]. }
  destruct (Parse tokenString (getSecretForToken serv)) as [token | err] eqn:Hp.
  - destruct (processJwt_parse_ok serv s _ _ Hiss Htok Hne Hp)
      as (claims & issuer & Hc & Hi & Hstep).
    destruct (Parse_Ok_issuer serv _ _ Hp) as (_ & claims' & issuer' & secret & Hc' & Hi' & Hreg).
    rewrite Hc in Hc'. injection Hc' as <-. rewrite Hi in Hi'. injection Hi' as <-.
    destruct (claims !! "account") as [[| | | account | |] |]; eauto.
    right. exists issuer, account. split; [eauto |]. split; [reflexivity | exact Hstep].
  - left. rewrite (processJwt_parse_fail serv s _ _ Hiss Htok Hne Hp). eauto.
Qed.

(** X12: the claim-processing step never panics, and it changes the state
    in one way only: by writing the header with an issuer and an account
    inserted together, the issuer being one configured in the registry and
    the client having supplied no [issuer] itself. *)
Theorem processJwt_injects_registered_issuer_only (s : State) :
  exists r s',
    processJwt serv s = Ret r s'
    /\ (s' = s
        \/ r = None
           /\ exists issuer account,
                is_Some (JwtSecretsByIssuer serv !! issuer)
                /\ clientMetadata s !! "issuer" = None
                /\ s' = identified issuer account s).
Proof.
  destruct (processJwt_outcome s) as [[r Hr] | (issuer & account & Hreg & Hiss & Hr)].
  - exists r, s. split; [exact Hr | by left].
  - exists None, (identified issuer account s). split; [exact Hr |].
    right. split; [reflexivity |]. eauto.
Qed.

Lemma postFile_dispatch (s s1 s2 : State) (r : option error) :
  addRemoteIPToMetadata serv s = Ret None s1 ->
  processJwt serv s1 = Ret r s2 ->
  postFile serv s = Ret tt (dispatched r s2).
Proof.
  intros Hip Hstep. rewrite (postFile_step serv s s1 Hip).
  unfold bind at 1. rewrite Hstep. destruct r as [err |]; [| reflexivity].
  unfold dispatched. destruct (isFatalJwtError err) eqn:Hfatal; [| reflexivity].
  assert (Habort : bind (AbortWithError StatusBadRequest err)
                     (fun _ => SetType ErrorTypePublic) s2
                   = Ret tt (abortedWith StatusBadRequest err ErrorTypePublic s2)).
  { unfold bind, AbortWithError, SetType, abortedWith. simpl.
    by rewrite setLastType_snoc. }
  destruct err as [| | | [[]|] errs | | |]; try exact Habort.
  unfold bind, ctxError, SetType, AbortWithStatusJSON, unauthorizedWith. simpl.
  by rewrite setLastType_snoc.
Qed.

Lemma postFile_address_fail (s s1 : State) (err : error) :
  addRemoteIPToMetadata serv s = Ret (Some err) s1 ->
  postFile serv s
  = Ret tt (abortedWith
              (match err with
               | AddrError _ _ => StatusInternalServerError
               | _ => StatusNotAcceptable
               end) err ErrorTypePrivate s1).
Proof.
  intros Hip. unfold postFile, bind at 1. rewrite Hip.
  destruct err; try reflexivity.
  unfold bind, AbortWithError, SetType, abortedWith. simpl.
  by rewrite setLastType_snoc.
Qed.

Lemma addRemoteIP_frame (s : State) :
  exists r s1, addRemoteIPToMetadata serv s = Ret r s1 /\ onlyMetadataChanged s s1.
Proof.
  pose proof (addRemoteIP_outcome serv s) as Hout.
  destruct (clientMetadata s !! "RemoteIP").
  { eexists _, _. split; [exact Hout | apply onlyMetadataChanged_refl]. }
  destruct Hout as (r & s0 & Hres & Hadd).
  destruct (resolver_log_outcome serv s) as (r' & entries & Hres' & _).
  rewrite Hres in Hres'. injection Hres' as <- ->.
  destruct (snd r); eexists _, _; (split; [exact Hadd |]).
  - apply onlyMetadataChanged_appendLog.
  - eapply onlyMetadataChanged_trans; [apply onlyMetadataChanged_appendLog |].
    apply onlyMetadataChanged_withMetadata.
Qed.

Lemma processJwt_frame (s : State) :
  exists r s2, processJwt serv s = Ret r s2 /\ onlyMetadataChanged s s2.
Proof.
  destruct (processJwt_outcome s) as [[r Hr] | (issuer & account & _ & _ & Hr)].
  - exists r, s. split; [exact Hr | apply onlyMetadataChanged_refl].
  - eexists _, _. split; [exact Hr | apply onlyMetadataChanged_identified].
Qed.

(** X13: [postFile] never panics and ends in one of two ways.  Either the
    request is rejected: the chain is aborted with status 400, 401, 406 or
    500, one error is attached to the context and the upload engine is not
    called.  Or it goes on: status, body and errors are as before and the
    engine is called exactly once, with the request as [postFile] leaves
    it. *)
Theorem postFile_outcomes (s : State) :
  exists s',
    postFile serv s = Ret tt s'
    /\ (st_aborted s' = true
        /\ st_engine s' = st_engine s
        /\ (exists code,
              st_status s' = Some code
              /\ code ∈ [StatusBadRequest; StatusUnauthorized;
                         StatusNotAcceptable; StatusInternalServerError])
        /\ (exists err t, st_errors s' = st_errors s ++ [(err, t)])
        \/ st_aborted s' = st_aborted s
           /\ st_status s' = st_status s
           /\ st_json s' = st_json s
           /\ st_errors s' = st_errors s
           /\ st_engine s' = st_engine s ++ [st_request s']).
Proof.
  destruct (addRemoteIP_frame s) as ([err |] & s1 & Hip & F1 & F2 & F3 & F4 & F5 & _).
  - exists (abortedWith
              (match err with
               | AddrError _ _ => StatusInternalServerError
               | _ => StatusNotAcceptable
               end) err ErrorTypePrivate s1).
    split; [by apply postFile_address_fail |]. left. simpl.
    split; [reflexivity |]. split; [exact F5 |]. split.
    + eexists. split; [reflexivity |]. destruct err; set_solver.
    + exists err, ErrorTypePrivate. by rewrite F3.
  - destruct (processJwt_frame s1) as (r & s2 & Hstep & G1 & G2 & G3 & G4 & G5 & _).
    exists (dispatched r s2). split; [by eapply postFile_dispatch |].
    destruct r as [err |]; simpl.
    + destruct (isFatalJwtError err) eqn:Hfatal.
      * left.
        assert (Hcases : (exists errs, err = ValidationError (Some ErrSignatureInvalid) errs)
                         \/ dispatched (Some err) s2
                            = abortedWith StatusBadRequest err ErrorTypePublic s2).
        { unfold dispatched. rewrite Hfatal.
          destruct err as [| | | [[]|] errs | | |]; eauto. }
        destruct Hcases as [[errs ->] | Heq].
        -- simpl. split; [reflexivity |]. split; [congruence |]. split.
           ++ eexists. split; [reflexivity |]. set_solver.
           ++ eexists _, _. by rewrite G3, F3.
        -- unfold dispatched in Heq. rewrite Hfatal in Heq. rewrite Heq. simpl.
           split; [reflexivity |]. split; [congruence |]. split.
           ++ eexists. split; [reflexivity |]. set_solver.
           ++ eexists _, _. by rewrite G3, F3.
      * right. simpl. repeat split; congruence.
    + right. repeat split; congruence.
Qed.

(** X14: of the request, [postFile] can only change the metadata header:
    the peer address and every other header, the forwarded-address one
    included, are as they arrived. *)
Theorem postFile_changes_metadata_header_only (s s' : State) (key : string) :
  postFile serv s = Ret tt s' ->
  key <> "Upload-Metadata" ->
  RemoteAddr (st_request s') = RemoteAddr (st_request s)
  /\ Header (st_request s') !! key = Header (st_request s) !! key.
Proof.
  intros Hrun Hkey.
  destruct (addRemoteIP_frame s) as ([err |] & s1 & Hip & F).
  - rewrite (postFile_address_fail s s1 err Hip) in Hrun. injection Hrun as <-.
    destruct F as (_ & _ & _ & _ & _ & Haddr & Hhdr). simpl. split; [done | by apply Hhdr].
  - destruct (processJwt_frame s1) as (r & s2 & Hstep & G).
    rewrite (postFile_dispatch s s1 s2 r Hip Hstep) in Hrun. injection Hrun as <-.
    pose proof (onlyMetadataChanged_trans _ _ _ F G) as (_ & _ & _ & _ & _ & Haddr & Hhdr).
    assert (Hreq : st_request (dispatched r s2) = st_request s2).
    { unfold dispatched. destruct r as [err |]; [| reflexivity].
      destruct (isFatalJwtError err); [| reflexivity].
      by destruct err as [| | | [[]|] errs | | |]. }
    rewrite Hreq. split; [done | by apply Hhdr].
Qed.

(** X15: the upload engine only ever receives a metadata header the server
    encoded itself.  Whenever [postFile] calls the engine, the client had
    supplied no [RemoteIP], and the header handed over is the encoding of
    the client's metadata with [RemoteIP] set to the resolved address, or
    of what that encoding decodes to with a registered issuer and an account
    inserted on top. *)
Theorem engine_receives_server_metadata (s s' : State) (forwarded : Request) :
  postFile serv s = Ret tt s' ->
  st_engine s' = st_engine s ++ [forwarded] ->
  clientMetadata s !! "RemoteIP" = None
  /\ exists ip s0,
       getDirectOrForwardedRemoteIP serv s = Ret (ip, None) s0
       /\ let augmented := <["RemoteIP" := ip]> (clientMetadata s) in
          Header_Get (Header forwarded) "Upload-Metadata" = serializeMeta augmented
          \/ exists issuer account,
               is_Some (JwtSecretsByIssuer serv !! issuer)
               /\ Header_Get (Header forwarded) "Upload-Metadata"
                  = serializeMeta
                      (<["account" := account]>
                         (<["issuer" := issuer]> (parseMeta (serializeMeta augmented)))).
Proof.
  intros Hrun Heng.
  destruct (addRemoteIP_frame s) as ([err |] & s1 & Hip & F).
  { rewrite (postFile_address_fail s s1 err Hip) in Hrun. injection Hrun as <-.
    simpl in Heng. destruct F as (_ & _ & _ & _ & F5 & _). rewrite F5 in Heng.
    symmetry in Heng. by apply snoc_neq in Heng. }
  destruct (addRemoteIP_success_inv serv s s1 Hip) as (Hkey & ip & s0 & Hres & _ & Hhdr).
  split; [exact Hkey |]. exists ip, s0. split; [exact Hres |].
  destruct F as (_ & _ & _ & _ & F5 & _).
  assert (Hfwd : forall r s2, st_engine s2 = st_engine s ->
                   st_engine (dispatched r s2) = st_engine s ++ [forwarded] ->
                   forwarded = st_request s2).
  { intros r s2 Hs2 Hd. unfold dispatched in Hd.
    assert (Hgo : st_engine s2 ++ [st_request s2] = st_engine s ++ [forwarded]
                  -> forwarded = st_request s2).
    { rewrite Hs2. intros Happ. apply app_inv_head in Happ. congruence. }
    destruct r as [err |]; [| by apply Hgo].
    destruct (isFatalJwtError err); [| by apply Hgo].
    exfalso.
    assert (Hsame : st_engine s2 = st_engine s ++ [forwarded])
      by by destruct err as [| | | [[]|] errs | | |].
    rewrite Hs2 in Hsame. symmetry in Hsame. by apply snoc_neq in Hsame. }
  destruct (processJwt_outcome s1) as [[r Hr] | (issuer & account & Hreg & _ & Hr)].
  - rewrite (postFile_dispatch s s1 s1 r Hip Hr) in Hrun. injection Hrun as <-.
    rewrite (Hfwd r s1 F5 Heng). left. exact Hhdr.
  - rewrite (postFile_dispatch s s1 _ None Hip Hr) in Hrun. injection Hrun as <-.
    rewrite (Hfwd None (identified issuer account s1) F5 Heng).
    right. exists issuer, account. split; [exact Hreg |].
    unfold identified, withMetadata, exec, setHeader, setRequest, Header_Get, Header_Set.
    simpl. rewrite lookup_insert_eq. unfold clientMetadata at 1. by rewrite Hhdr.
Qed.

(** X16: a token that [Parse] accepts and whose [account] claim is a string
    makes the step write the header with the token's issuer and account
    inserted, so that a client-supplied [account] is overwritten; the issuer
    is one of the registry, one line is printed, and [postFile] then hands
    the request to the engine. *)
Theorem accepted_token_injects (s s1 : State) (tokenString : string) (token : Token)
    (claims : gmap string iface) (issuer account : string) :
  addRemoteIPToMetadata serv s = Ret None s1 ->
  clientMetadata s1 !! "issuer" = None ->
  clientMetadata s1 !! "extjwt" = Some tokenString ->
  tokenString <> EmptyString ->
  Parse tokenString (getSecretForToken serv) = Ok token ->
  TokenClaims token = MapClaims claims ->
  claims !! "iss" = Some (VString issuer) ->
  claims !! "account" = Some (VString account) ->
  is_Some (JwtSecretsByIssuer serv !! issuer)
  /\ processJwt serv s1 = Ret None (identified issuer account s1)
  /\ postFile serv s = Ret tt (exec PostFile (identified issuer account s1))
  /\ Header_Get (Header (st_request (identified issuer account s1))) "Upload-Metadata"
     = serializeMeta
         (<["account" := account]> (<["issuer" := issuer]> (clientMetadata s1))).
Proof.
  intros Hip Hiss Htok Hne Hp Hc Hi Ha.
  destruct (Parse_Ok_issuer serv _ _ Hp) as (_ & claims' & issuer' & secret & Hc' & Hi' & Hreg).
  rewrite Hc in Hc'. injection Hc' as <-. rewrite Hi in Hi'. injection Hi' as <-.
  split; [eauto |].
  assert (Hstep : processJwt serv s1 = Ret None (identified issuer account s1)).
  { destruct (processJwt_parse_ok serv s1 _ _ Hiss Htok Hne Hp)
      as (claims' & issuer' & Hc' & Hi' & ->).
    rewrite Hc in Hc'. injection Hc' as <-.
    rewrite Hi in Hi'. injection Hi' as <-. by rewrite Ha. }
  split; [exact Hstep |].
  split; [exact (postFile_dispatch s s1 _ None Hip Hstep) |].
  unfold identified, withMetadata, exec, setHeader, setRequest, Header_Get, Header_Set.
  simpl. by rewrite lookup_insert_eq.
Qed.

(** X17: a token of the HMAC family whose [iss] claim is missing, or is not
    a string, is rejected with status 400; the error names which of the
    two it was. *)
Theorem bad_issuer_claim_rejected (s s1 : State) (tokenString : string)
    (token : Token) (parts : string * string * string) (claims : gmap string iface) :
  addRemoteIPToMetadata serv s = Ret None s1 ->
  clientMetadata s1 !! "issuer" = None ->
  clientMetadata s1 !! "extjwt" = Some tokenString ->
  tokenString <> EmptyString ->
  ParseUnverified tokenString = Ok (token, parts) ->
  Method token = SigningMethodHMAC ->
  TokenClaims token = MapClaims claims ->
  (forall issuer, claims !! "iss" <> Some (VString issuer)) ->
  postFile serv s
  = Ret tt
      (abortedWith StatusBadRequest
         (ValidationError
            (Some (Errorf (match claims !! "iss" with
                           | None => "Issuer field 'iss' missing from JWT"
                           | Some _ => "Failed to coerce issuer to string"
                           end) []))
            ValidationErrorUnverifiable)
         ErrorTypePublic s1).
Proof.
  intros Hip Hiss Htok Hne Hdec Hm Hc Hbad.
  set (msg := match claims !! "iss" with
              | None => "Issuer field 'iss' missing from JWT"
              | Some _ => "Failed to coerce issuer to string"
              end).
  assert (Hkey : getSecretForToken serv token = Fail (Errorf msg [])).
  { unfold getSecretForToken, msg. rewrite Hm, Hc.
    destruct (claims !! "iss") as [[| | | issuer | |] |] eqn:E; try reflexivity.
    exfalso. by eapply Hbad. }
  assert (Hp : Parse tokenString (getSecretForToken serv)
               = Fail (ValidationError (Some (Errorf msg [])) ValidationErrorUnverifiable)).
  { unfold Parse. rewrite Hdec. destruct parts as [[p0 p1] p2]. by rewrite Hkey. }
  eapply postFile_bad_request; [exact Hip | | reflexivity | discriminate].
  by apply (processJwt_parse_fail serv s1 tokenString).
Qed.

(** X18: a request without a token (no [extjwt] entry, or an empty one) and
    without a client-supplied [issuer] goes to the engine as the address
    step left it: nothing is verified, logged or written. *)
Theorem no_token_proceeds (s s1 : State) :
  addRemoteIPToMetadata serv s = Ret None s1 ->
  clientMetadata s1 !! "issuer" = None ->
  default EmptyString (clientMetadata s1 !! "extjwt") = EmptyString ->
  processJwt serv s1 = Ret None s1
  /\ postFile serv s = Ret tt (exec PostFile s1).
Proof.
  intros Hip Hiss Htok.
  assert (Hstep : processJwt serv s1 = Ret None s1) by by apply processJwt_no_token.
  split; [exact Hstep |]. exact (postFile_dispatch s s1 s1 None Hip Hstep).
Qed.

(** The other way a signature check can fail: when it reports an error
    that is not [jwt.ErrSignatureInvalid] (a signature segment that does
    not decode, say), the request is rejected with status 400 and no
    hint. *)
Lemma verify_error_bad_request (s s1 : State) (tokenString : string)
    (token : Token) (p0 p1 p2 : string)
    (claims : gmap string iface) (issuer secret : string) (err : error) :
  addRemoteIPToMetadata serv s = Ret None s1 ->
  clientMetadata s1 !! "issuer" = None ->
  clientMetadata s1 !! "extjwt" = Some tokenString ->
  tokenString <> EmptyString ->
  ParseUnverified tokenString = Ok (token, (p0, p1, p2)) ->
  Method token = SigningMethodHMAC ->
  TokenClaims token = MapClaims claims ->
  claims !! "iss" = Some (VString issuer) ->
  JwtSecretsByIssuer serv !! issuer = Some secret ->
  Verify SigningMethodHMAC (p0 +:+ "." +:+ p1) p2 secret = Some err ->
  err <> ErrSignatureInvalid ->
  (forall unknown, err <> UnknownIssuerError unknown) ->
  exists errs,
    postFile serv s
    = Ret tt (abortedWith StatusBadRequest (ValidationError (Some err) errs)
                ErrorTypePublic s1).
Proof.
  intros Hip Hiss Htok Hne Hdec Hm Hc Hi Hreg Hsig Hnsig Hnunk.
  assert (Hparse : exists errs,
             Parse tokenString (getSecretForToken serv)
             = Fail (ValidationError (Some err) errs)).
  { unfold Parse. rewrite Hdec.
    rewrite (getSecretForToken_known_issuer _ _ _ _ _ Hm Hc Hi Hreg).
    rewrite Hm, Hsig. simpl.
    eexists. rewrite decide_False; [reflexivity |].
    by apply lor_flag_nonzero. }
  destruct Hparse as [errs Hparse]. exists errs.
  eapply postFile_bad_request; [exact Hip | | |].
  - by apply (processJwt_parse_fail serv s1 tokenString).
  - destruct err; try reflexivity. exfalso. by eapply Hnunk.
  - intros errs' Heq. injection Heq as -> _. by apply Hnsig.
Qed.

End TokenProperties.

(** ** More on the recorder *)

Section RecorderWrites.
Context {store : DbLib}.

Lemma ipRecorder_filter (channel : list TusEvent) :
  ipRecorder channel
  = recordUploaderIP <$> filter (fun event => Type_ event = HookPostCreate) channel.
Proof.
  induction channel as [| event rest IH]; [reflexivity |]. simpl.
  destruct (decide (Type_ event = HookPostCreate)) as [Hc | Hc].
  - rewrite filter_cons_True by done. simpl. by rewrite IH.
  - by rewrite filter_cons_False.
Qed.

Lemma runAll_db (events : list TusEvent) (s : RecState) :
  rec_db (runAll (recordUploaderIP <$> events) s)
  = foldl (fun db event => writeOf event db) (rec_db s) events.
Proof.
  revert s. induction events as [| event rest IH]; intros s; [reflexivity |].
  unfold runAll in *. simpl. rewrite IH. by rewrite recordUploaderIP_db.
Qed.

(** An order of the goroutines is an order of the events they captured. *)
Lemma schedule_events (events : list TusEvent) (order : list (RecState -> RecState)) :
  order ≡ₚ recordUploaderIP <$> events ->
  exists ran, ran ≡ₚ events /\ order = recordUploaderIP <$> ran.
Proof.
  intros Hperm. apply Permutation_map_inv in Hperm as (ran & -> & Hran).
  exists ran. split; [by symmetry | reflexivity].
Qed.

(** X19: over any stream of events the recorder starts exactly one write
    per created upload; in whatever order the goroutines run, the store
    ends as the statement run once for each created upload, in the order
    the goroutines ran, with the address found under [RemoteIP] and the
    upload's ID; an error of one run stops none of the others. *)
Theorem ipRecorder_one_write_per_created (channel : list TusEvent) (s : RecState) :
  let createdEvents := filter (fun event => Type_ event = HookPostCreate) channel in
  ipRecorder channel = recordUploaderIP <$> createdEvents
  /\ length (ipRecorder channel) = length createdEvents
  /\ forall db,
       reachableStore (ipRecorder channel) s db
       <-> exists ran,
             ran ≡ₚ createdEvents
             /\ db = foldl (fun db event => writeOf event db) (rec_db s) ran.
Proof.
  intros createdEvents. rewrite ipRecorder_filter. fold createdEvents.
  split; [reflexivity |]. split; [by rewrite length_fmap |].
  intros db. split.
  - intros (order & Hperm & <-).
    apply schedule_events in Hperm as (ran & Hran & ->).
    exists ran. split; [exact Hran | apply runAll_db].
  - intros (ran & Hran & ->). exists (recordUploaderIP <$> ran).
    split; [by rewrite Hran | apply runAll_db].
Qed.

Section Redelivery.
Variable event : TusEvent.
Hypothesis idempotent : forall db, writeOf event (writeOf event db) = writeOf event db.

(** A write of [event] moves across writes it commutes with. *)
Lemma writes_commute (mid : list TusEvent) (db : DB) :
  (forall other, other ∈ mid -> commutesWith event other) ->
  foldl (fun db e => writeOf e db) (writeOf event db) mid
  = writeOf event (foldl (fun db e => writeOf e db) db mid).
Proof.
  revert db. induction mid as [| other rest IH]; intros db Hcomm; [reflexivity |].
  simpl. rewrite (Hcomm other) by left. apply IH.
  intros o Ho. apply Hcomm. by right.
Qed.

(** Of two writes of [event] with commuting writes between them, the first
    can be left out. *)
Lemma writes_absorb (pre mid post : list TusEvent) (db : DB) :
  (forall other, other ∈ mid -> commutesWith event other) ->
  foldl (fun db e => writeOf e db) db (pre ++ event :: mid ++ event :: post)
  = foldl (fun db e => writeOf e db) db (pre ++ mid ++ event :: post).
Proof.
  intros Hcomm. rewrite !foldl_app. simpl. rewrite !foldl_app. simpl.
  by rewrite (writes_commute mid _ Hcomm), idempotent.
Qed.

Lemma writes_absorb_later (pre mid post : list TusEvent) (db : DB) :
  (forall other, other ∈ mid -> commutesWith event other) ->
  foldl (fun db e => writeOf e db) db (pre ++ event :: mid ++ event :: post)
  = foldl (fun db e => writeOf e db) db (pre ++ event :: mid ++ post).
Proof.
  intros Hcomm. rewrite !foldl_app. simpl. rewrite !foldl_app. simpl.
  by rewrite (writes_commute mid _ Hcomm), idempotent.
Qed.

Lemma commutesWith_self : commutesWith event event.
Proof. by intros db. Qed.

End Redelivery.

(** X20: the recorder does not remember what it has recorded: a created
    event delivered twice starts two writes.  When the store's statement
    is idempotent for that event and commutes with the writes of the other
    created uploads of the stream, the second delivery is harmless under
    every order in which the goroutines may run: the stores they can leave
    are the same with and without it. *)
Theorem redelivered_created_event (before after : list TusEvent) (event : TusEvent)
    (s : RecState) :
  Type_ event = HookPostCreate ->
  (forall db, writeOf event (writeOf event db) = writeOf event db) ->
  (forall other, other ∈ before ++ after -> Type_ other = HookPostCreate ->
     forall db, writeOf other (writeOf event db) = writeOf event (writeOf other db)) ->
  length (ipRecorder (before ++ event :: event :: after))
  = S (length (ipRecorder (before ++ event :: after)))
  /\ forall db,
       reachableStore (ipRecorder (before ++ event :: event :: after)) s db
       <-> reachableStore (ipRecorder (before ++ event :: after)) s db.
Proof.
  intros Hty Hidem Hcomm.
  set (cb := filter (fun e => Type_ e = HookPostCreate) before).
  set (ca := filter (fun e => Type_ e = HookPostCreate) after).
  assert (Hdup : ipRecorder (before ++ event :: event :: after)
                 = recordUploaderIP <$> (cb ++ event :: event :: ca)).
  { rewrite ipRecorder_filter, filter_app.
    by rewrite !(filter_cons_True _ event) by done. }
  assert (Hone : ipRecorder (before ++ event :: after)
                 = recordUploaderIP <$> (cb ++ event :: ca)).
  { rewrite ipRecorder_filter, filter_app.
    by rewrite !(filter_cons_True _ event) by done. }
  rewrite Hdup, Hone. split.
  { rewrite !length_fmap, !length_app. simpl. lia. }
  assert (Hothers : forall ran other,
            ran ≡ₚ cb ++ event :: ca -> other ∈ ran -> commutesWith event other).
  { intros ran other Hran Hin. rewrite Hran in Hin.
    apply elem_of_app in Hin as [Hin | Hin];
      [| apply elem_of_cons in Hin as [-> | Hin]; [apply commutesWith_self |]].
    - apply list_elem_of_filter in Hin as [Hc Hin].
      intros db. apply Hcomm; [apply elem_of_app; by left | done].
    - apply list_elem_of_filter in Hin as [Hc Hin].
      intros db. apply Hcomm; [apply elem_of_app; by right | done]. }
  intros db. split.
  - intros (order & Hperm & <-).
    apply schedule_events in Hperm as (ran & Hran & ->).
    rewrite <- Permutation_middle in Hran.
    apply Permutation_cons_inv_r in Hran as (k1 & k2 & -> & Hrest).
    symmetry in Hrest.
    exists (recordUploaderIP <$> (k1 ++ k2)). split; [by rewrite Hrest |].
    rewrite !runAll_db.
    assert (Hin : event ∈ k1 ++ k2).
    { rewrite Hrest. apply elem_of_app. right. left. }
    apply elem_of_app in Hin as [Hin | Hin];
      apply list_elem_of_split in Hin as (m1 & m2 & ->).
    + rewrite <- !app_assoc. simpl. symmetry.
      apply (writes_absorb_later event Hidem).
      intros other Ho. apply (Hothers _ other Hrest).
      apply elem_of_app. left. apply elem_of_app. right. by right.
    + symmetry. apply (writes_absorb event Hidem).
      intros other Ho. apply (Hothers _ other Hrest).
      apply elem_of_app. right. apply elem_of_app. by left.
  - intros (order & Hperm & <-).
    apply schedule_events in Hperm as (ran & Hran & ->).
    pose proof Hran as Hran'. rewrite <- Permutation_middle in Hran'.
    apply Permutation_cons_inv_r in Hran' as (k1 & k2 & -> & Hrest).
    exists (recordUploaderIP <$> (k1 ++ event :: event :: k2)). split.
    + apply fmap_Permutation. rewrite <- !Permutation_middle.
      do 2 constructor. by symmetry.
    + rewrite !runAll_db.
      apply (writes_absorb event Hidem k1 [] k2). intros other Ho. inversion Ho.
Qed.

End RecorderWrites.

(** ** The claims at concrete requests *)

#[local] Existing Instance SpecCodec.codec.
#[local] Existing Instance IPv4.lib.
#[local] Existing Instance PlainJwt.lib.
#[local] Existing Instance TableStore.lib.

Lemma postFile_client_RemoteIP_rejected_witness :
  is_Some (clientMetadata forgedIP !! "RemoteIP")
  /\ exists s', postFile server forgedIP = Ret tt s'
       /\ rejected StatusNotAcceptable forgedIP s'
       /\ st_errors s'
          = st_errors forgedIP
            ++ [(Errorf "Metadata field RemoteIP cannot be set by client" [],
                 ErrorTypePrivate)]
       /\ st_log s' = st_log forgedIP.
Proof.
  assert (Hkey : is_Some (clientMetadata forgedIP !! "RemoteIP")).
  { exists "1.1.1.1". vm_compute. reflexivity. }
  split; [exact Hkey |].
  exact (postFile_client_RemoteIP_rejected server forgedIP Hkey).
Defined.

(** C1, as stated, fails: the request below carries a client-supplied
    [RemoteIP] and is not rejected with status 400 (it is rejected with
    406). *)
Lemma client_RemoteIP_not_400 :
  is_Some (clientMetadata forgedIP !! "RemoteIP")
  /\ ~ (exists s', postFile server forgedIP = Ret tt s'
          /\ rejected StatusBadRequest forgedIP s').
Proof.
  split.
  - exists "1.1.1.1". vm_compute. reflexivity.
  - intros (s' & Hrun & Hstatus & _).
    assert (Hactual : st_status <$> finalState (postFile server forgedIP)
                      = Some (Some StatusNotAcceptable))
      by (vm_compute; reflexivity).
    rewrite Hrun in Hactual. simpl in Hactual. rewrite Hstatus in Hactual.
    discriminate.
Qed.

(** C2 at a request whose metadata carries a client-supplied [account]: the
    loop of [processJwt] passes over the key, nothing is rejected, and the
    upload engine receives the request with the client's own [account]
    value in its metadata. *)
Theorem client_account_reaches_engine :
  clientMetadata forgedAccount !! "account" = Some "admin"
  /\ exists s' forwarded,
       postFile server forgedAccount = Ret tt s'
       /\ st_status s' = None /\ st_aborted s' = false
       /\ st_engine s' = [forwarded]
       /\ parseMeta (Header_Get (Header forwarded) "Upload-Metadata") !! "account"
          = Some "admin".
Proof.
  split; [vm_compute; reflexivity |].
  exists (exec (postFile server) forgedAccount).
  exists (st_request (exec (postFile server) forgedAccount)).
  repeat split; vm_compute; reflexivity.
Qed.

Lemma resolver_trusted_forwarded_witness :
  getDirectOrForwardedRemoteIP server trustedGarbage
  = Ret (EmptyString, Some ErrInvalidXForwardedFor)
      (logged ErrorLevel
         [Err ErrInvalidXForwardedFor; Str "client" "not-an-ip"; Str "remoteIP" "10.0.0.1"]
         "Couldn't use trusted X-Forwarded-For header" trustedGarbage)
  /\ exists s', postFile server trustedGarbage = Ret tt s'
       /\ rejected StatusNotAcceptable trustedGarbage s'.
Proof.
  assert (Hsplit : SplitHostPort (RemoteAddr (st_request trustedGarbage))
                   = inl ("10.0.0.1", "5555")) by (vm_compute; reflexivity).
  assert (Hfwd : Header_Get (Header (st_request trustedGarbage)) "X-Forwarded-For"
                 <> EmptyString) by (vm_compute; discriminate).
  assert (Htrust : remoteIPisTrusted server (ParseIP "10.0.0.1") = true)
    by (vm_compute; reflexivity).
  exact (resolver_trusted_forwarded server trustedGarbage "10.0.0.1" "5555"
           Hsplit Hfwd Htrust).
Defined.

Lemma resolver_untrusted_forwarded_witness :
  getDirectOrForwardedRemoteIP server untrustedForwarded
  = Ret ("1.2.3.4", None)
      (logged WarnLevel [Str "X-Forwarded-For" "9.9.9.9"; Str "remoteIP" "1.2.3.4"]
         "Untrusted remote attempted to override stored IP" untrustedForwarded)
  /\ forall other : string,
       other <> EmptyString ->
       returned (getDirectOrForwardedRemoteIP server (withForwarded other untrustedForwarded))
       = Some ("1.2.3.4", None).
Proof.
  assert (Hsplit : SplitHostPort (RemoteAddr (st_request untrustedForwarded))
                   = inl ("1.2.3.4", "5555")) by (vm_compute; reflexivity).
  assert (Hfwd : Header_Get (Header (st_request untrustedForwarded)) "X-Forwarded-For"
                 <> EmptyString) by (vm_compute; discriminate).
  assert (Htrust : remoteIPisTrusted server (ParseIP "1.2.3.4") = false)
    by (vm_compute; reflexivity).
  exact (resolver_untrusted_forwarded server untrustedForwarded "1.2.3.4" "5555"
           Hsplit Hfwd Htrust).
Defined.

Lemma non_HMAC_token_rejected_witness :
  exists err,
    postFile server (withToken rsaToken)
    = Ret tt (abortedWith StatusBadRequest err ErrorTypePublic (afterIP rsaToken)).
Proof.
  assert (Hip : addRemoteIPToMetadata server (withToken rsaToken)
                = Ret None (afterIP rsaToken)) by (vm_compute; reflexivity).
  assert (Htok : clientMetadata (afterIP rsaToken) !! "extjwt" = Some rsaToken)
    by (vm_compute; reflexivity).
  assert (Hne : rsaToken <> EmptyString) by discriminate.
  assert (Hdec : ParseUnverified rsaToken
                 = Ok (mkToken rsaToken SigningMethodRSA
                         {[ "alg" := VString "RS256"; "typ" := VString "JWT" ]}
                         (MapClaims {[ "iss" := VString "gateway";
                                       "account" := VString "alice" ]})
                         EmptyString false,
                       ("RS256", "iss=gateway;account=alice", "s3cret")))
    by (vm_compute; reflexivity).
  assert (Hm : SigningMethodRSA <> SigningMethodHMAC) by discriminate.
  exact (proj2 (proj2 (proj2
           (non_HMAC_token_rejected server _ _ _ _ _ Hip Htok Hne Hdec Hm)))).
Defined.

Lemma unknown_issuer_proceeds_witness :
  exists s', postFile server (withToken strangerToken) = Ret tt s'
    /\ proceeded (afterIP strangerToken) s'
    /\ st_log s'
       = st_log (afterIP strangerToken)
         ++ [Entry WarnLevel
               [Err (ValidationError (Some (UnknownIssuerError "stranger"))
                       ValidationErrorUnverifiable)]
               "Failed to process EXTJWT"].
Proof.
  assert (Hip : addRemoteIPToMetadata server (withToken strangerToken)
                = Ret None (afterIP strangerToken)) by (vm_compute; reflexivity).
  assert (Hiss : clientMetadata (afterIP strangerToken) !! "issuer" = None)
    by (vm_compute; reflexivity).
  assert (Htok : clientMetadata (afterIP strangerToken) !! "extjwt" = Some strangerToken)
    by (vm_compute; reflexivity).
  assert (Hne : strangerToken <> EmptyString) by discriminate.
  assert (Hdec : ParseUnverified strangerToken
                 = Ok (mkToken strangerToken SigningMethodHMAC
                         {[ "alg" := VString "HS256"; "typ" := VString "JWT" ]}
                         (MapClaims {[ "iss" := VString "stranger";
                                       "account" := VString "alice" ]})
                         EmptyString false,
                       ("HS256", "iss=stranger;account=alice", "guess")))
    by (vm_compute; reflexivity).
  assert (Hi : ({[ "iss" := VString "stranger"; "account" := VString "alice" ]}
                  : gmap string iface) !! "iss" = Some (VString "stranger"))
    by (vm_compute; reflexivity).
  assert (Hreg : JwtSecretsByIssuer server !! "stranger" = None)
    by (vm_compute; reflexivity).
  exact (proj2 (proj2
           (unknown_issuer_proceeds server _ _ _ _ _ _ _
              Hip Hiss Htok Hne Hdec eq_refl eq_refl Hi Hreg))).
Defined.

Lemma bad_signature_unauthorized_witness :
  exists errs s',
    let invalid := ValidationError (Some ErrSignatureInvalid) errs in
    postFile server (withToken forgedToken) = Ret tt s'
    /\ rejected StatusUnauthorized (afterIP forgedToken) s'
    /\ st_json s'
       = Some (Sprintf "Failed to process EXTJWT: %s. Configured secret may be incorrect."
                 [AError invalid])
    /\ st_errors s' = st_errors (afterIP forgedToken) ++ [(invalid, ErrorTypePublic)].
Proof.
  assert (Hip : addRemoteIPToMetadata server (withToken forgedToken)
                = Ret None (afterIP forgedToken)) by (vm_compute; reflexivity).
  assert (Hiss : clientMetadata (afterIP forgedToken) !! "issuer" = None)
    by (vm_compute; reflexivity).
  assert (Htok : clientMetadata (afterIP forgedToken) !! "extjwt" = Some forgedToken)
    by (vm_compute; reflexivity).
  assert (Hne : forgedToken <> EmptyString) by discriminate.
  assert (Hdec : ParseUnverified forgedToken
                 = Ok (mkToken forgedToken SigningMethodHMAC
                         {[ "alg" := VString "HS256"; "typ" := VString "JWT" ]}
                         (MapClaims {[ "iss" := VString "gateway";
                                       "account" := VString "alice" ]})
                         EmptyString false,
                       ("HS256", "iss=gateway;account=alice", "guess")))
    by (vm_compute; reflexivity).
  assert (Hi : ({[ "iss" := VString "gateway"; "account" := VString "alice" ]}
                  : gmap string iface) !! "iss" = Some (VString "gateway"))
    by (vm_compute; reflexivity).
  assert (Hreg : JwtSecretsByIssuer server !! "gateway" = Some "s3cret")
    by (vm_compute; reflexivity).
  assert (Hsig : Verify SigningMethodHMAC
                   ("HS256" +:+ "." +:+ "iss=gateway;account=alice") "guess" "s3cret"
                 = Some ErrSignatureInvalid) by (vm_compute; reflexivity).
  exact (bad_signature_unauthorized server _ _ _ _ _ _ _ _ _ _
           Hip Hiss Htok Hne Hdec eq_refl eq_refl Hi Hreg Hsig).
Defined.

(** C7, as stated, fails.  The token below names a configured issuer and
    its signature does not verify against that issuer's secret: the
    segment is not base64 text, so the check reports the decoder's error
    and not [jwt.ErrSignatureInvalid].  The request is rejected with status
    400 and no body, not with 401 and the hint. *)
Lemma undecodable_signature_not_401 :
  addRemoteIPToMetadata server (withToken garbledToken) = Ret None (afterIP garbledToken)
  /\ clientMetadata (afterIP garbledToken) !! "issuer" = None
  /\ clientMetadata (afterIP garbledToken) !! "extjwt" = Some garbledToken
  /\ @ParseUnverified EncodedJwt.lib garbledToken
     = Ok (mkToken garbledToken SigningMethodHMAC
             {[ "alg" := VString "HS256"; "typ" := VString "JWT" ]}
             (MapClaims {[ "iss" := VString "gateway"; "account" := VString "alice" ]})
             EmptyString false,
           ("HS256", "iss=gateway;account=alice", "!!!"))
  /\ JwtSecretsByIssuer server !! "gateway" = Some "s3cret"
  /\ @Verify EncodedJwt.lib SigningMethodHMAC
       ("HS256" +:+ "." +:+ "iss=gateway;account=alice") "!!!" "s3cret"
     = Some (LibError "illegal base64 data")
  /\ st_status <$> finalState
       (@postFile SpecCodec.codec IPv4.lib EncodedJwt.lib server (withToken garbledToken))
     = Some (Some StatusBadRequest)
  /\ st_json <$> finalState
       (@postFile SpecCodec.codec IPv4.lib EncodedJwt.lib server (withToken garbledToken))
     = Some None
  /\ ~ (exists s',
          @postFile SpecCodec.codec IPv4.lib EncodedJwt.lib server (withToken garbledToken)
          = Ret tt s'
          /\ rejected StatusUnauthorized (afterIP garbledToken) s').
Proof.
  assert (Hactual : st_status <$> finalState
            (@postFile SpecCodec.codec IPv4.lib EncodedJwt.lib server
               (withToken garbledToken))
          = Some (Some StatusBadRequest)) by (vm_compute; reflexivity).
  split; [vm_compute; reflexivity |].
  split; [vm_compute; reflexivity |].
  split; [vm_compute; reflexivity |].
  split; [vm_compute; reflexivity |].
  split; [vm_compute; reflexivity |].
  split; [vm_compute; reflexivity |].
  split; [exact Hactual |].
  split; [vm_compute; reflexivity |].
  intros (s' & Hrun & Hstatus & _).
  rewrite Hrun in Hactual. simpl in Hactual. rewrite Hstatus in Hactual.
  clear Hrun. discriminate Hactual.
Qed.

Lemma account_missing_no_injection_witness :
  processJwt server (afterIP anonymousToken) = Ret None (afterIP anonymousToken).
Proof.
  assert (Hiss : clientMetadata (afterIP anonymousToken) !! "issuer" = None)
    by (vm_compute; reflexivity).
  assert (Htok : clientMetadata (afterIP anonymousToken) !! "extjwt"
                 = Some anonymousToken) by (vm_compute; reflexivity).
  assert (Hne : anonymousToken <> EmptyString) by discriminate.
  assert (Hparse : Parse anonymousToken (getSecretForToken server)
                   = Ok (mkToken anonymousToken SigningMethodHMAC
                           {[ "alg" := VString "HS256"; "typ" := VString "JWT" ]}
                           (MapClaims {[ "iss" := VString "gateway";
                                         "account" := VBool true ]})
                           "s3cret" true))
    by (vm_compute; reflexivity).
  refine (account_missing_no_injection server _ _ _ Hiss Htok Hne Hparse _).
  intros claims account Hc. simpl in Hc. injection Hc as <-.
  vm_compute. discriminate.
Defined.

Lemma ipRecorder_only_on_created_witness :
  ipRecorder [completed] = []
  /\ (forall s, runAll (ipRecorder [completed]) s = s)
  /\ ipRecorder ([created] ++ completed :: []) = ipRecorder ([created] ++ [])
  /\ forall g, g ∈ ipRecorder ([created] ++ completed :: []) ->
       exists ev, ev ∈ [created] ++ [] /\ Type_ ev = HookPostCreate
                  /\ g = recordUploaderIP ev.
Proof.
  assert (Hty : Type_ completed ∈ [HookPostReceive; HookPostFinish; HookPostTerminate]).
  { simpl. right. left. }
  exact (ipRecorder_only_on_created [created] [] completed Hty).
Defined.

(** A completed event after the created one does not alter the stored
    address. *)
Example completed_keeps_stored_ip :
  rec_db (runAll (ipRecorder [created; completed]) store0) !! "upload-1" = Some "9.9.9.9".
Proof. vm_compute. reflexivity. Qed.

Lemma created_without_RemoteIP_writes_empty_witness :
  ipRecorder [createdBare] = [recordUploaderIP createdBare]
  /\ rec_db (runAll (ipRecorder [createdBare]) store0)
     = fst (UpdateRow (rec_db store0) updateUploaderIP [EmptyString; "upload-2"]).
Proof.
  assert (Hkey : MetaData (Info createdBare) !! "RemoteIP" = None)
    by (vm_compute; reflexivity).
  exact (created_without_RemoteIP_writes_empty createdBare store0 eq_refl Hkey).
Defined.

Example created_bare_stores_empty :
  rec_db (runAll (ipRecorder [createdBare]) store0) !! "upload-2" = Some EmptyString.
Proof. vm_compute. reflexivity. Qed.


(** ** Further properties at concrete requests *)

Lemma cors_allowed_origin_witness :
  customizedCors corsOrigins (corsRequest "https://chat.example.org") staleResponse
    !! "Access-Control-Allow-Origin"
  = Some ["https://chat.example.org"]
  /\ customizedCors corsOrigins (corsRequest "https://chat.example.org") staleResponse
       !! "Vary"
     = Some (["Accept-Encoding"] ++ ["Origin"]).
Proof.
  assert (Hin : Header_Get (Header (corsRequest "https://chat.example.org")) "Origin"
                ∈ corsOrigins).
  { vm_compute. left. }
  exact (cors_allowed_origin corsOrigins (corsRequest "https://chat.example.org")
           staleResponse Hin).
Defined.

Lemma cors_other_origin_witness :
  customizedCors corsOrigins (corsRequest "https://evil.example.net") staleResponse
    !! "Access-Control-Allow-Origin"
  = None
  /\ customizedCors corsOrigins (corsRequest "https://evil.example.net") staleResponse
       !! "Vary"
     = Some (["Accept-Encoding"] ++ ["Origin"]).
Proof.
  assert (Hnin : Header_Get (Header (corsRequest "https://evil.example.net")) "Origin"
                 ∉ corsOrigins).
  { vm_compute. intros Hin.
    repeat (apply elem_of_cons in Hin as [Hin | Hin]; [discriminate |]).
    inversion Hin. }
  exact (cors_other_origin corsOrigins (corsRequest "https://evil.example.net")
           staleResponse Hnin).
Defined.

Lemma cors_other_headers_kept_witness :
  customizedCors corsOrigins (corsRequest "https://evil.example.net") staleResponse
    !! "Content-Type"
  = staleResponse !! "Content-Type".
Proof.
  assert (Hacao : "Content-Type" <> "Access-Control-Allow-Origin") by discriminate.
  assert (Hvary : "Content-Type" <> "Vary") by discriminate.
  exact (cors_other_headers_kept corsOrigins (corsRequest "https://evil.example.net")
           staleResponse "Content-Type" Hacao Hvary).
Defined.

Lemma resolver_without_trusted_ranges_witness :
  returned (getDirectOrForwardedRemoteIP openServer proxied) = Some ("10.0.0.1", None).
Proof.
  assert (Hsplit : SplitHostPort (RemoteAddr (st_request proxied)) = inl ("10.0.0.1", "5555"))
    by (vm_compute; reflexivity).
  exact (resolver_without_trusted_ranges openServer proxied "10.0.0.1" "5555"
           eq_refl Hsplit).
Defined.

Lemma addRemoteIP_success_witness :
  clientMetadata plain !! "RemoteIP" = None
  /\ exists ip s0,
       getDirectOrForwardedRemoteIP server plain = Ret (ip, None) s0
       /\ exec (addRemoteIPToMetadata server) plain
          = withMetadata (<["RemoteIP" := ip]> (clientMetadata plain)) s0
       /\ Header_Get (Header (st_request (exec (addRemoteIPToMetadata server) plain)))
            "Upload-Metadata"
          = serializeMeta (<["RemoteIP" := ip]> (clientMetadata plain)).
Proof.
  assert (Hstep : addRemoteIPToMetadata server plain
                  = Ret None (exec (addRemoteIPToMetadata server) plain))
    by (vm_compute; reflexivity).
  exact (addRemoteIP_success server plain _ Hstep).
Defined.

Lemma addRemoteIP_keeps_client_keys_witness :
  clientMetadata (exec (addRemoteIPToMetadata server) plain) !! "RemoteIP" = Some "1.2.3.4"
  /\ forall key, key <> "RemoteIP" ->
       clientMetadata (exec (addRemoteIPToMetadata server) plain) !! key
       = clientMetadata plain !! key.
Proof.
  assert (Hstep : addRemoteIPToMetadata server plain
                  = Ret None (exec (addRemoteIPToMetadata server) plain))
    by (vm_compute; reflexivity).
  assert (Hres : getDirectOrForwardedRemoteIP server plain = Ret ("1.2.3.4", None) plain)
    by (vm_compute; reflexivity).
  assert (Hround : parseMeta (serializeMeta (<["RemoteIP" := "1.2.3.4"]> (clientMetadata plain)))
                   = <["RemoteIP" := "1.2.3.4"]> (clientMetadata plain))
    by (vm_compute; reflexivity).
  exact (addRemoteIP_keeps_client_keys server plain plain _ "1.2.3.4" Hstep Hres Hround).
Defined.

Lemma address_error_internal_witness :
  postFile server badPeer
  = Ret tt
      (abortedWith StatusInternalServerError
         (AddrError "missing port in address" "1.2.3.4") ErrorTypePrivate
         (appendLog [Entry ErrorLevel [Err (AddrError "missing port in address" "1.2.3.4")]
                       "Could not split address into host and port"] badPeer)).
Proof.
  assert (Hkey : clientMetadata badPeer !! "RemoteIP" = None) by (vm_compute; reflexivity).
  assert (Hsplit : SplitHostPort (RemoteAddr (st_request badPeer))
                   = inr ("missing port in address", "1.2.3.4"))
    by (vm_compute; reflexivity).
  exact (address_error_internal server badPeer _ _ Hkey Hsplit).
Defined.

Lemma postFile_changes_metadata_header_only_witness :
  RemoteAddr (st_request (exec (postFile server) untrustedForwarded))
  = RemoteAddr (st_request untrustedForwarded)
  /\ Header (st_request (exec (postFile server) untrustedForwarded)) !! "X-Forwarded-For"
     = Header (st_request untrustedForwarded) !! "X-Forwarded-For".
Proof.
  assert (Hrun : postFile server untrustedForwarded
                 = Ret tt (exec (postFile server) untrustedForwarded))
    by (vm_compute; reflexivity).
  assert (Hkey : "X-Forwarded-For" <> "Upload-Metadata") by discriminate.
  exact (postFile_changes_metadata_header_only server untrustedForwarded _
           "X-Forwarded-For" Hrun Hkey).
Defined.

Lemma engine_receives_server_metadata_witness :
  clientMetadata plain !! "RemoteIP" = None
  /\ exists ip s0,
       getDirectOrForwardedRemoteIP server plain = Ret (ip, None) s0
       /\ let augmented := <["RemoteIP" := ip]> (clientMetadata plain) in
          Header_Get (Header (st_request (exec (postFile server) plain))) "Upload-Metadata"
          = serializeMeta augmented
          \/ exists issuer account,
               is_Some (JwtSecretsByIssuer server !! issuer)
               /\ Header_Get (Header (st_request (exec (postFile server) plain)))
                    "Upload-Metadata"
                  = serializeMeta
                      (<["account" := account]>
                         (<["issuer" := issuer]> (parseMeta (serializeMeta augmented)))).
Proof.
  assert (Hrun : postFile server plain = Ret tt (exec (postFile server) plain))
    by (vm_compute; reflexivity).
  assert (Heng : st_engine (exec (postFile server) plain)
                 = st_engine plain ++ [st_request (exec (postFile server) plain)])
    by (vm_compute; reflexivity).
  exact (engine_receives_server_metadata server plain _ _ Hrun Heng).
Defined.

Lemma accepted_token_injects_witness :
  is_Some (JwtSecretsByIssuer server !! "gateway")
  /\ processJwt server (afterIP validToken)
     = Ret None (identified "gateway" "alice" (afterIP validToken))
  /\ postFile server (withToken validToken)
     = Ret tt (exec PostFile (identified "gateway" "alice" (afterIP validToken)))
  /\ Header_Get (Header (st_request (identified "gateway" "alice" (afterIP validToken))))
       "Upload-Metadata"
     = serializeMeta
         (<["account" := "alice"]>
            (<["issuer" := "gateway"]> (clientMetadata (afterIP validToken)))).
Proof.
  assert (Hip : addRemoteIPToMetadata server (withToken validToken)
                = Ret None (afterIP validToken)) by (vm_compute; reflexivity).
  assert (Hiss : clientMetadata (afterIP validToken) !! "issuer" = None)
    by (vm_compute; reflexivity).
  assert (Htok : clientMetadata (afterIP validToken) !! "extjwt" = Some validToken)
    by (vm_compute; reflexivity).
  assert (Hne : validToken <> EmptyString) by discriminate.
  assert (Hparse : Parse validToken (getSecretForToken server)
                   = Ok (mkToken validToken SigningMethodHMAC
                           {[ "alg" := VString "HS256"; "typ" := VString "JWT" ]}
                           (MapClaims {[ "iss" := VString "gateway";
                                         "account" := VString "alice" ]})
                           "s3cret" true))
    by (vm_compute; reflexivity).
  assert (Hi : ({[ "iss" := VString "gateway"; "account" := VString "alice" ]}
                  : gmap string iface) !! "iss" = Some (VString "gateway"))
    by (vm_compute; reflexivity).
  assert (Ha : ({[ "iss" := VString "gateway"; "account" := VString "alice" ]}
                  : gmap string iface) !! "account" = Some (VString "alice"))
    by (vm_compute; reflexivity).
  exact (accepted_token_injects server _ _ _ _ _ _ _ Hip Hiss Htok Hne Hparse eq_refl Hi Ha).
Defined.

Lemma bad_issuer_claim_rejected_witness :
  postFile server (withToken noIssuerToken)
  = Ret tt
      (abortedWith StatusBadRequest
         (ValidationError (Some (Errorf "Issuer field 'iss' missing from JWT" []))
            ValidationErrorUnverifiable)
         ErrorTypePublic (afterIP noIssuerToken)).
Proof.
  assert (Hip : addRemoteIPToMetadata server (withToken noIssuerToken)
                = Ret None (afterIP noIssuerToken)) by (vm_compute; reflexivity).
  assert (Hiss : clientMetadata (afterIP noIssuerToken) !! "issuer" = None)
    by (vm_compute; reflexivity).
  assert (Htok : clientMetadata (afterIP noIssuerToken) !! "extjwt" = Some noIssuerToken)
    by (vm_compute; reflexivity).
  assert (Hne : noIssuerToken <> EmptyString) by discriminate.
  assert (Hdec : ParseUnverified noIssuerToken
                 = Ok (mkToken noIssuerToken SigningMethodHMAC
                         {[ "alg" := VString "HS256"; "typ" := VString "JWT" ]}
                         (MapClaims {[ "account" := VString "alice" ]})
                         EmptyString false,
                       ("HS256", "account=alice", "s3cret")))
    by (vm_compute; reflexivity).
  assert (Hbad : forall issuer,
             ({[ "account" := VString "alice" ]} : gmap string iface) !! "iss"
             <> Some (VString issuer)) by (intros issuer; vm_compute; discriminate).
  exact (bad_issuer_claim_rejected server _ _ _ _ _ _
           Hip Hiss Htok Hne Hdec eq_refl eq_refl Hbad).
Defined.

Lemma no_token_proceeds_witness :
  processJwt server (exec (addRemoteIPToMetadata server) plain)
  = Ret None (exec (addRemoteIPToMetadata server) plain)
  /\ postFile server plain
     = Ret tt (exec PostFile (exec (addRemoteIPToMetadata server) plain)).
Proof.
  assert (Hip : addRemoteIPToMetadata server plain
                = Ret None (exec (addRemoteIPToMetadata server) plain))
    by (vm_compute; reflexivity).
  assert (Hiss : clientMetadata (exec (addRemoteIPToMetadata server) plain) !! "issuer"
                 = None) by (vm_compute; reflexivity).
  assert (Htok : default EmptyString
                   (clientMetadata (exec (addRemoteIPToMetadata server) plain) !! "extjwt")
                 = EmptyString) by (vm_compute; reflexivity).
  exact (no_token_proceeds server plain _ Hip Hiss Htok).
Defined.

Lemma redelivered_created_event_witness :
  length (ipRecorder ([] ++ created :: created :: [createdBare]))
  = S (length (ipRecorder ([] ++ created :: [createdBare])))
  /\ forall db,
       reachableStore (ipRecorder ([] ++ created :: created :: [createdBare])) store0 db
       <-> reachableStore (ipRecorder ([] ++ created :: [createdBare])) store0 db.
Proof.
  assert (Hidem : forall db : gmap string string,
             writeOf created (writeOf created db) = writeOf created db).
  { intros db. unfold writeOf. simpl. unfold TableStore.updateRow.
    destruct (db !! "upload-1") eqn:E; simpl.
    - rewrite lookup_insert_eq. simpl. apply insert_insert_eq.
    - by rewrite E. }
  assert (Hcomm : forall other, other ∈ [] ++ [createdBare] ->
             Type_ other = HookPostCreate ->
             forall db : gmap string string,
               writeOf other (writeOf created db) = writeOf created (writeOf other db)).
  { intros other Hin _ db. apply list_elem_of_singleton in Hin as ->.
    unfold writeOf. simpl. unfold TableStore.updateRow.
    destruct (db !! "upload-1") eqn:E1; destruct (db !! "upload-2") eqn:E2; simpl;
      rewrite ?lookup_insert_ne by done; rewrite ?E1, ?E2; simpl; try reflexivity.
    by apply insert_insert_ne. }
  exact (redelivered_created_event [] [createdBare] created store0 eq_refl Hidem Hcomm).
Defined.

Lemma trusted_proxy_injects_client_address_witness :
  addRemoteIPToMetadata server proxied
  = Ret None (withMetadata (<["RemoteIP" := "9.9.9.9"]> (clientMetadata proxied)) proxied).
Proof.
  assert (Hkey : clientMetadata proxied !! "RemoteIP" = None) by (vm_compute; reflexivity).
  assert (Hsplit : SplitHostPort (RemoteAddr (st_request proxied)) = inl ("10.0.0.1", "5555"))
    by (vm_compute; reflexivity).
  assert (Hfwd : Header_Get (Header (st_request proxied)) "X-Forwarded-For" <> EmptyString)
    by (vm_compute; discriminate).
  assert (Htrust : remoteIPisTrusted server (ParseIP "10.0.0.1") = true)
    by (vm_compute; reflexivity).
  assert (Hip : ParseIP (GoStrings.TrimSpace
                           (hd EmptyString
                              (GoStrings.Split
                                 (Header_Get (Header (st_request proxied)) "X-Forwarded-For")
                                 ",")))
                = Some [9; 9; 9; 9]%N) by (vm_compute; reflexivity).
  exact (trusted_proxy_injects_client_address server proxied "10.0.0.1" "5555" _
           Hkey Hsplit Hfwd Htrust Hip).
Defined.

Lemma untrusted_peer_injects_direct_host_witness :
  addRemoteIPToMetadata server untrustedForwarded
  = Ret None
      (withMetadata (<["RemoteIP" := "1.2.3.4"]> (clientMetadata untrustedForwarded))
         (logged WarnLevel [Str "X-Forwarded-For" "9.9.9.9"; Str "remoteIP" "1.2.3.4"]
            "Untrusted remote attempted to override stored IP" untrustedForwarded)).
Proof.
  assert (Hkey : clientMetadata untrustedForwarded !! "RemoteIP" = None)
    by (vm_compute; reflexivity).
  assert (Hsplit : SplitHostPort (RemoteAddr (st_request untrustedForwarded))
                   = inl ("1.2.3.4", "5555")) by (vm_compute; reflexivity).
  assert (Hfwd : Header_Get (Header (st_request untrustedForwarded)) "X-Forwarded-For"
                 <> EmptyString) by (vm_compute; discriminate).
  assert (Htrust : remoteIPisTrusted server (ParseIP "1.2.3.4") = false)
    by (vm_compute; reflexivity).
  exact (untrusted_peer_injects_direct_host server untrustedForwarded "1.2.3.4" "5555"
           Hkey Hsplit Hfwd Htrust).
Defined.
